(** * Energy-consumption front-end: proxy handlers, predictor view, dataset view

    A shallow embedding of the three source files of the front-end

    - [src/app/api/dataset/route.ts]: the two proxy handlers, [GET] for the
      dataset listing and [POST] for the prediction;
    - [src/app/page.tsx]: the predictor view [Home];
    - the dataset view [DatasetPage] with its hand-made chart [LineGraph];

    followed by the properties of the specification that are settled
    against it.

    Modelling conventions.

    - A JavaScript number is an IEEE-754 binary64 value: [spec_float] of the
      standard library with precision 53 and maximal exponent 1024, and the
      arithmetic operators are the correctly rounded [SFadd], [SFsub],
      [SFmul], [SFdiv].  Array lengths and indices, page numbers and page
      sizes are integers; they are kept in [Z] and injected with [ofZ].
    - A parsed JSON document or a JavaScript object is a [JsValue]; an object
      is a finite map from property names to values.
    - An [async] handler is a computation in the monad [Handler]: it may
      throw, and it may call [fetch], which is answered by the backend and
      recorded in the trace of outbound calls.
    - A JSON document, the body of a request or of a response, is
      represented by the value that a JSON parser reads from it;
      [Js.to_json] gives the document that [JSON.stringify] and
      [NextResponse.json] write for a value.
    - Calls to [console.log] are left out, except for the evaluation of an
      argument that can throw; the static markup of the views and the form
      handler [handleChange] (which only copies an input into [formData])
      are left out too.  React applies the state updates of one event
      handler together, before the next render and its effects. *)

From Stdlib Require Import ZArith QArith Qround Qabs Lqa String Ascii List Lia Bool.
From Stdlib Require Import Floats.SpecFloat.
From Stdlib Require Import DecimalString DecimalN DecimalPos DecimalFacts.
From stdpp Require Import gmap strings.

Import ListNotations.

#[local] Set Warnings "-register-all".

(** ** JavaScript numbers *)

Module Num.

Definition prec : Z := 53.
Definition emax : Z := 1024.

Abbreviation Number := spec_float.

Definition add : Number -> Number -> Number := SFadd prec emax.
Definition sub : Number -> Number -> Number := SFsub prec emax.
Definition mul : Number -> Number -> Number := SFmul prec emax.
Definition div : Number -> Number -> Number := SFdiv prec emax.

(** The number denoted by an integer literal, or by an integer such as an
    array length (exact below [2^53], rounded to nearest above). *)
Definition ofZ (z : Z) : Number := binary_normalize prec emax z 0 false.

Definition NaN : Number := S754_nan.
Definition Infinity : Number := S754_infinity false.
Definition NegInfinity : Number := S754_infinity true.

Definition is_finite (x : Number) : bool :=
  match x with
  | S754_zero _ | S754_finite _ _ _ => true
  | _ => false
  end.

(** [ToBoolean] on a number: [+0], [-0] and [NaN] are falsy. *)
Definition truthy (x : Number) : bool :=
  match x with
  | S754_zero _ | S754_nan => false
  | _ => true
  end.

(** [a || b] on numbers. *)
Definition or_else (a b : Number) : Number := if truthy a then a else b.

(** [a > b]; false as soon as one side is [NaN]. *)
Definition gt (a b : Number) : bool := SFltb b a.
Definition lt (a b : Number) : bool := SFltb a b.

Definition pow2 (e : Z) : Q := Qpower (2 # 1) e.

(** The mathematical value of a finite number ([0] for the others, which
    are always told apart before the value is used). *)
Definition value (x : Number) : Q :=
  match x with
  | S754_finite s m e =>
      (if s then Qopp else fun q => q) (inject_Z (Zpos m) * pow2 e)%Q
  | _ => 0%Q
  end.

(** [Math.max(...values)] and [Math.min(...values)]: the fold of the
    language definition, starting from [-Infinity] (resp. [+Infinity]);
    a [NaN] among the arguments makes the result [NaN], and [+0] counts
    as larger than [-0]. *)
Definition max_step (highest number : Number) : Number :=
  match highest, number with
  | S754_nan, _ | _, S754_nan => S754_nan
  | S754_zero true, S754_zero false => number
  | _, _ => if gt number highest then number else highest
  end.

Definition min_step (lowest number : Number) : Number :=
  match lowest, number with
  | S754_nan, _ | _, S754_nan => S754_nan
  | S754_zero false, S754_zero true => number
  | _, _ => if lt number lowest then number else lowest
  end.

Definition Math_max (values : list Number) : Number :=
  fold_left max_step values NegInfinity.

Definition Math_min (values : list Number) : Number :=
  fold_left min_step values Infinity.

End Num.

(** ** Decimal digits and the number-to-string conversions *)

Module Text.

#[local] Open Scope Z_scope.

(** The decimal digits of a natural number, most significant first;
    ["0"] for zero. *)
Definition digits (n : N) : list ascii :=
  list_ascii_of_string (NilEmpty.string_of_uint (N.to_uint n)).

Definition zeros (k : nat) : list ascii := repeat "0"%char k.

(** The number read from a list of decimal digits, [None] as soon as one
    character is not a digit. *)
Definition digits_value (l : list ascii) : option N :=
  option_map N.of_uint (NilEmpty.uint_of_string (string_of_list_ascii l)).

(** An integer in a template literal. *)
Definition int_text (z : Z) : string :=
  String.append (if z <? 0 then "-"%string else ""%string)
                (string_of_list_ascii (digits (Z.to_N (Z.abs z)))).

Definition pow10 (z : Z) : Q := Qpower (10 # 1) z.

Definition Qltb (a b : Q) : bool := negb (Qle_bool b a).

(** *** [Number::toString] (radix 10) *)

Definition ndigits (p : positive) : Z :=
  Z.of_nat (Decimal.nb_digits (Pos.to_uint p)).

(** For [v > 0], the integer [n] with [10^(n-1) <= v < 10^n]. *)
Definition decimal_exponent (v : Q) : Z :=
  let g := ndigits (Z.to_pos (Qnum v)) - ndigits (Qden v) in
  if Qle_bool (pow10 g) v then g + 1 else g.

(** The reals that round to the positive binary64 number [m * 2^e] are
    those of an interval around it, closed when [m] is even (ties go to
    the even mantissa) and open otherwise.  The gap below is halved at
    the bottom of a binade. *)
Definition rounds_to (m : positive) (e : Z) (r : Q) : bool :=
  let v := (inject_Z (Zpos m) * Num.pow2 e)%Q in
  let below :=
    if (Zpos m =? 2 ^ 52) && (-1074 <? e) then Num.pow2 (e - 2)
    else Num.pow2 (e - 1) in
  let lo := (v - below)%Q in
  let hi := (v + Num.pow2 (e - 1))%Q in
  if Z.even (Zpos m) then Qle_bool lo r && Qle_bool r hi
  else Qltb lo r && Qltb r hi.

(** The triple [(n, k, s)] of the language definition: [s] has [k]
    digits, [s * 10^(n-k)] rounds to the number, and [k] is as small as
    possible; among two candidates the one closer to the number, and the
    even one when they are equally close.  Seventeen digits always tell a
    binary64 number apart, so the search stops there with the nearest
    candidate. *)
Definition normalise_candidate (n0 k s : Z) : Z * Z * Z :=
  if s =? 10 ^ k then (n0 + 1, k, 10 ^ (k - 1)) else (n0, k, s).

Fixpoint shortest (fuel : nat) (k : Z) (m : positive) (e : Z) (n0 : Z)
  : Z * Z * Z :=
  let v := (inject_Z (Zpos m) * Num.pow2 e)%Q in
  let scale := pow10 (n0 - k) in
  let s := Qfloor (v / scale) in
  let r_lo := (inject_Z s * scale)%Q in
  let r_hi := (inject_Z (s + 1) * scale)%Q in
  let closest :=
    if Qltb (v - r_lo) (r_hi - v) then s
    else if Qltb (r_hi - v) (v - r_lo) then s + 1
    else if Z.even s then s else s + 1 in
  match fuel with
  | O => normalise_candidate n0 k closest
  | S fuel' =>
      match rounds_to m e r_lo, rounds_to m e r_hi with
      | true, true => normalise_candidate n0 k closest
      | true, false => normalise_candidate n0 k s
      | false, true => normalise_candidate n0 k (s + 1)
      | false, false => shortest fuel' (k + 1) m e n0
      end
  end.

Definition toString_digits (n k s : Z) : list ascii :=
  let ds := digits (Z.to_N s) in
  if (k <=? n) && (n <=? 21) then ds ++ zeros (Z.to_nat (n - k))
  else if (0 <? n) && (n <=? 21) then
    firstn (Z.to_nat n) ds ++ "."%char :: skipn (Z.to_nat n) ds
  else if (-6 <? n) && (n <=? 0) then
    "0"%char :: "."%char :: zeros (Z.to_nat (- n)) ++ ds
  else
    let e := n - 1 in
    let c := if e <? 0 then "-"%char else "+"%char in
    let es := digits (Z.to_N (Z.abs e)) in
    if k =? 1 then ds ++ "e"%char :: c :: es
    else firstn 1 ds ++ "."%char :: skipn 1 ds ++ "e"%char :: c :: es.

Definition toString_chars (x : Num.Number) : list ascii :=
  match x with
  | S754_nan => list_ascii_of_string "NaN"
  | S754_zero _ => list_ascii_of_string "0"
  | S754_infinity s =>
      (if s then ["-"%char] else []) ++ list_ascii_of_string "Infinity"
  | S754_finite sg m e =>
      let v := (inject_Z (Zpos m) * Num.pow2 e)%Q in
      let '(n, k, s) := shortest 16 1 m e (decimal_exponent (Qred v)) in
      (if sg then ["-"%char] else []) ++ toString_digits n k s
  end.

Definition Number_toString (x : Num.Number) : string :=
  string_of_list_ascii (toString_chars x).

(** *** [Number.prototype.toFixed] *)

(** The integer [n] for which [n / 10^f - v] is as close to zero as
    possible, the larger one when there are two. *)
Definition nearest_scaled (v : Q) (f : nat) : Z :=
  Qfloor (v * pow10 (Z.of_nat f) + (1 # 2)).

Definition fixed_digits (n : Z) (f : nat) : list ascii :=
  let m := digits (Z.to_N n) in
  match f with
  | O => m
  | _ =>
      let m := if (length m <=? f)%nat
               then zeros (f + 1 - length m) ++ m else m in
      let k := length m in
      firstn (k - f) m ++ "."%char :: skipn (k - f) m
  end.

Definition toFixed_chars (x : Num.Number) (f : nat) : list ascii :=
  if negb (Num.is_finite x) then toString_chars x
  else
    let v := Num.value x in
    let neg := Qltb v 0 in
    let s := if neg then ["-"%char] else [] in
    let v := if neg then Qopp v else v in
    if Qle_bool (pow10 21) v then s ++ toString_chars (SFabs x)
    else s ++ fixed_digits (nearest_scaled v f) f.

Definition toFixed (x : Num.Number) (f : nat) : string :=
  string_of_list_ascii (toFixed_chars x f).

End Text.

(** ** JavaScript values *)

Module Js.

Inductive Value :=
| Undefined
| Null
| Bool (b : bool)
| Number (x : Num.Number)
| String (s : string)
| Array (items : list Value)
| Object (props : gmap string Value).

Inductive Error :=
| TypeError (msg : string)
| SyntaxError (msg : string)
| Thrown (msg : string).

(** [ToBoolean]. *)
Definition truthy (v : Value) : bool :=
  match v with
  | Undefined | Null => false
  | Bool b => b
  | Number x => Num.truthy x
  | String s => negb (String.eqb s "")
  | Array _ | Object _ => true
  end.

Definition is_undefined (v : Value) : bool :=
  match v with Undefined => true | _ => false end.

Definition is_nullish (v : Value) : bool :=
  match v with Undefined | Null => true | _ => false end.

(** [a ?? b]. *)
Definition nullish_or (a b : Value) : Value :=
  if is_nullish a then b else a.

(** The property read [v.k], for a name [k] that is none of the built-in
    properties of strings, arrays, numbers and booleans (the handlers read
    the names of the fields of the three payloads only): the property of
    an object when it has it, [undefined] otherwise, and a [TypeError] on
    [null] and [undefined]. *)
Definition get (v : Value) (k : string) : Error + Value :=
  match v with
  | Undefined | Null =>
      inl (TypeError ("Cannot read properties of null or undefined: " ++ k))
  | Object props => inr (default Undefined (props !! k))
  | _ => inr Undefined
  end.

(** The optional read [v?.k]. *)
Definition get_optional (v : Value) (k : string) : Error + Value :=
  if is_nullish v then inr Undefined else get v k.

(** The element read [v[0]] of a value that is neither [null] nor
    [undefined]: the first element of an array, the first character of a
    string, the property ["0"] of an object, [undefined] otherwise. *)
Definition first_item (v : Value) : Value :=
  match v with
  | Array (item :: _) => item
  | String (String.String c _) => String (String.String c EmptyString)
  | Object props => default Undefined (props !! "0")
  | _ => Undefined
  end.

(** The names of the properties that an object literal inherits from
    [Object.prototype]. *)
Definition Object_prototype_names : list string :=
  ["constructor"; "hasOwnProperty"; "isPrototypeOf";
   "propertyIsEnumerable"; "toLocaleString"; "toString"; "valueOf";
   "__proto__"; "__defineGetter__"; "__defineSetter__";
   "__lookupGetter__"; "__lookupSetter__"].

(** The JSON document that [JSON.stringify] writes for a value, as a
    parser reads it back: [NaN] and the infinities are written [null],
    [-0] is written [0], every other number reads back as it is; a
    property whose value is [undefined] is left out of an object, an
    [undefined] element of an array is written [null]. *)
Fixpoint to_json (v : Value) : Value :=
  match v with
  | Number x =>
      match x with
      | S754_zero _ => Number (S754_zero false)
      | S754_finite _ _ _ => Number x
      | _ => Null
      end
  | Array items =>
      Array (map (fun e => match e with
                           | Undefined => Null
                           | _ => to_json e
                           end) items)
  | Object props =>
      Object (omap (fun e => match e with
                             | Undefined => None
                             | _ => Some (to_json e)
                             end) props)
  | _ => v
  end.

(** What becomes of one property of an object in its document. *)
Definition json_prop (v : Value) : option Value :=
  match v with
  | Undefined => None
  | _ => Some (to_json v)
  end.

End Js.

(** ** The monad of the route handlers *)

Module Handler.

Record RequestInit := {
  method : string;
  headers : list (string * string);
  body : option Js.Value;   (* the JSON document sent, if any *)
}.

Record FetchCall := { url : string; init : RequestInit }.

(** What [fetch] comes back with: a rejected promise, or a response with
    its status and the outcome of [response.json()] ([None] when the body
    is not JSON). *)
Inductive FetchReply :=
| Rejected
| Replied (status : Z) (payload : option Js.Value).

Record World := {
  NEXT_PUBLIC_BACKEND_URL : option string;
  backend : FetchCall -> FetchReply;
}.

(** A computation reads the world, appends to the trace of outbound
    calls, and ends with a value or a thrown error. *)
Definition M (A : Type) : Type :=
  World -> list FetchCall -> (Js.Error + A) * list FetchCall.

Definition ret {A} (a : A) : M A := fun _ tr => (inr a, tr).

Definition bind {A B} (c : M A) (k : A -> M B) : M B :=
  fun w tr =>
    match c w tr with
    | (inl e, tr') => (inl e, tr')
    | (inr a, tr') => k a w tr'
    end.

Definition throw {A} (e : Js.Error) : M A := fun _ tr => (inl e, tr).

Definition lift {A} (r : Js.Error + A) : M A := fun _ tr => (r, tr).

(** [try { c } catch (error) { h error }]. *)
Definition try_catch {A} (c : M A) (h : Js.Error -> M A) : M A :=
  fun w tr =>
    match c w tr with
    | (inl e, tr') => h e w tr'
    | (inr a, tr') => (inr a, tr')
    end.

Definition env_backend_url : M (option string) :=
  fun w tr => (inr (NEXT_PUBLIC_BACKEND_URL w), tr).

Record Response := { resp_status : Z; resp_json : option Js.Value }.

Definition ok (r : Response) : bool :=
  ((200 <=? resp_status r) && (resp_status r <=? 299))%Z.

(** [await fetch(url, init)]. *)
Definition fetch (u : string) (i : RequestInit) : M Response :=
  fun w tr =>
    let call := {| url := u; init := i |} in
    match backend w call with
    | Rejected => (inl (Js.TypeError "fetch failed"), tr ++ [call])
    | Replied st payload =>
        (inr {| resp_status := st; resp_json := payload |}, tr ++ [call])
    end.

(** [await response.json()]. *)
Definition response_json (r : Response) : M Js.Value :=
  match resp_json r with
  | Some v => ret v
  | None => throw (Js.SyntaxError "Unexpected token in JSON")
  end.

Definition run {A} (c : M A) (w : World) : (Js.Error + A) * list FetchCall :=
  c w [].

End Handler.

Notation "'let!' x ':=' c1 'in' c2" := (Handler.bind c1 (fun x => c2))
  (at level 10, x binder, c1 at level 100, c2 at level 200).

(** ** Requests and responses of the Next.js routes *)

Module Next.

(** An incoming request: the query of its URL as [URLSearchParams] lists
    it, and the outcome of [request.json()] ([None] when the body is not
    JSON). *)
Record NextRequest := {
  searchParams : list (string * string);
  json : option Js.Value;
}.

(** A response: its status and the JSON document of its body. *)
Record NextResponse := { status : Z; data : Js.Value }.

(** [NextResponse.json(data)] and [NextResponse.json(data, { status })]. *)
Definition json_response (data : Js.Value) : NextResponse :=
  {| status := 200; data := Js.to_json data |}.

Definition json_response_status (data : Js.Value) (st : Z) : NextResponse :=
  {| status := st; data := Js.to_json data |}.

(** [searchParams.get(name)]: the first value of that name, or [null]. *)
Fixpoint searchParams_get (ps : list (string * string)) (name : string)
  : option string :=
  match ps with
  | [] => None
  | (k, v) :: rest =>
      if String.eqb k name then Some v else searchParams_get rest name
  end.

(** [await request.json()]. *)
Definition request_json (r : NextRequest) : Handler.M Js.Value :=
  match json r with
  | Some v => Handler.ret v
  | None => Handler.throw (Js.SyntaxError "Unexpected end of JSON input")
  end.

(** [s || d] for a string [s] that may be [null]. *)
Definition string_or (s : option string) (d : string) : string :=
  match s with
  | Some v => if String.eqb v "" then d else v
  | None => d
  end.

Definition error_body (msg : string) : Js.Value :=
  Js.Object {[ "error" := Js.String msg ]}.

Definition json_headers : list (string * string) :=
  [("Content-Type", "application/json")].

End Next.

(** ** [GET /api/dataset] *)

Module DatasetRoute.
Import Handler Next.

(** The argument [data.data?.[0]] of the second [console.log]: reading
    [data.data] throws when [data] is [null]. *)
Definition first_data_item (data : Js.Value) : M Js.Value :=
  let! items := lift (Js.get data "data") in
  ret (if Js.is_nullish items then Js.Undefined else Js.first_item items).

Definition GET (request : NextRequest) : M NextResponse :=
  try_catch
    (let page := string_or (searchParams_get (searchParams request) "page") "1" in
     let limit := string_or (searchParams_get (searchParams request) "limit") "50" in
     let! env := env_backend_url in
     let BACKEND_URL := string_or env "http://127.0.0.1:8000" in
     let DATASET_ENDPOINT :=
       (BACKEND_URL ++ "/dataset?page=" ++ page ++ "&limit=" ++ limit)%string in
     let! response := fetch DATASET_ENDPOINT
       {| method := "GET"; headers := json_headers; body := None |} in
     if negb (ok response) then
       throw (Js.Thrown ("Backend returned status " ++
                         Text.int_text (resp_status response)))
     else
       let! data := response_json response in
       let! first := first_data_item data in
       ret (json_response data))
    (fun error =>
       ret (json_response_status
              (error_body "Failed to fetch dataset from backend") 500)).

End DatasetRoute.

(** ** [POST /api/predict] *)

Module PredictRoute.
Import Handler Next.

Definition zero : Js.Value := Js.Number (Num.ofZ 0).

(** [const { building_type, ... } = body]: the four reads, after the
    check that [body] can be destructured at all. *)
Definition destructure (body : Js.Value)
  : Js.Error + (Js.Value * Js.Value * Js.Value * Js.Value) :=
  match Js.get body "building_type", Js.get body "square_footage",
        Js.get body "number_of_occupants", Js.get body "appliances_used" with
  | inr a, inr b, inr c, inr d => inr (a, b, c, d)
  | inl e, _, _, _ | _, inl e, _, _ | _, _, inl e, _ | _, _, _, inl e => inl e
  end.

Definition normalize (data : Js.Value) : Js.Error + Js.Value :=
  match Js.get data "energy_consumption", Js.get data "unit",
        Js.get data "factors" with
  | inr energy, inr unit, inr factors =>
      match Js.get_optional factors "building_type",
            Js.get_optional factors "square_footage",
            Js.get_optional factors "number_of_occupants",
            Js.get_optional factors "appliances_used" with
      | inr fb, inr fs, inr fo, inr fa =>
          inr (Js.Object
                 {[ "energy_consumption" := Js.nullish_or energy zero;
                    "unit" := Js.nullish_or unit (Js.String "kWh");
                    "factors" :=
                      Js.Object
                        {[ "building_type" := Js.nullish_or fb zero;
                           "square_footage" := Js.nullish_or fs zero;
                           "number_of_occupants" := Js.nullish_or fo zero;
                           "appliances_used" := Js.nullish_or fa zero ]} ]})
      | inl e, _, _, _ | _, inl e, _, _ | _, _, inl e, _ | _, _, _, inl e =>
          inl e
      end
  | inl e, _, _ | _, inl e, _ | _, _, inl e => inl e
  end.

Definition POST (request : NextRequest) : M NextResponse :=
  try_catch
    (let! body := request_json request in
     let! '(building_type, square_footage, number_of_occupants,
            appliances_used) := lift (destructure body) in
     if negb (Js.truthy building_type)
        || Js.is_undefined square_footage
        || Js.is_undefined number_of_occupants
        || Js.is_undefined appliances_used
     then
       ret (json_response_status (error_body "Missing required fields") 400)
     else
       let! env := env_backend_url in
       let BACKEND_URL := string_or env "http://localhost:5000" in
       let PREDICT_ENDPOINT := (BACKEND_URL ++ "/predict")%string in
       let! response := fetch PREDICT_ENDPOINT
         {| method := "POST"; headers := json_headers;
            body := Some (Js.to_json (Js.Object
              {[ "building_type" := building_type;
                 "square_footage" := square_footage;
                 "number_of_occupants" := number_of_occupants;
                 "appliances_used" := appliances_used ]})) |} in
       if negb (ok response) then
         throw (Js.Thrown ("Backend returned status " ++
                           Text.int_text (resp_status response)))
       else
         let! data := response_json response in
         let! normalizedResponse := lift (normalize data) in
         ret (json_response normalizedResponse))
    (fun error =>
       ret (json_response_status
              (error_body "Failed to get prediction from backend") 500)).

End PredictRoute.

(** ** The predictor view *)

Module Home.

Record FormData := {
  building_type : string;
  square_footage : Num.Number;
  number_of_occupants : Num.Number;
  appliances_used : Num.Number;
}.

Record Factors := {
  f_building_type : option Num.Number;
  f_square_footage : option Num.Number;
  f_number_of_occupants : option Num.Number;
  f_appliances_used : option Num.Number;
}.

Record PredictionResult := {
  energy_consumption : Num.Number;
  unit : option string;
  factors : option Factors;
}.

Record State := {
  formData : FormData;
  result : option PredictionResult;
  loading : bool;
  error : option string;
}.

Definition initial : State :=
  {| formData := {| building_type := "Residential";
                    square_footage := Num.ofZ 250;
                    number_of_occupants := Num.ofZ 4;
                    appliances_used := Num.ofZ 20 |};
     result := None; loading := false; error := None |}.

(** The document [JSON.stringify(formData)] for the finite numbers that
    the number inputs of the form yield. *)
Definition formData_value (f : FormData) : Js.Value :=
  Js.Object
    {[ "building_type" := Js.String (building_type f);
       "square_footage" := Js.Number (square_footage f);
       "number_of_occupants" := Js.Number (number_of_occupants f);
       "appliances_used" := Js.Number (appliances_used f) ]}.

(** The value of [await response.json()] read at the declared type
    [PredictionResult]; [None] for a value that is not of that type. *)
Definition as_number (v : Js.Value) : option Num.Number :=
  match v with Js.Number x => Some x | _ => None end.

Definition optional_number (o : gmap string Js.Value) (k : string)
  : option (option Num.Number) :=
  match o !! k with
  | None | Some Js.Undefined => Some None
  | Some (Js.Number x) => Some (Some x)
  | Some _ => None
  end.

Definition as_Factors (v : Js.Value) : option Factors :=
  match v with
  | Js.Object o =>
      match optional_number o "building_type",
            optional_number o "square_footage",
            optional_number o "number_of_occupants",
            optional_number o "appliances_used" with
      | Some a, Some b, Some c, Some d =>
          Some {| f_building_type := a; f_square_footage := b;
                  f_number_of_occupants := c; f_appliances_used := d |}
      | _, _, _, _ => None
      end
  | _ => None
  end.

Definition as_PredictionResult (v : Js.Value) : option PredictionResult :=
  match v with
  | Js.Object o =>
      match o !! "energy_consumption" with
      | Some (Js.Number e) =>
          let u := match o !! "unit" with
                   | None | Some Js.Undefined => Some None
                   | Some (Js.String s) => Some (Some s)
                   | Some _ => None
                   end in
          let f := match o !! "factors" with
                   | None | Some Js.Undefined => Some None
                   | Some fv => option_map Some (as_Factors fv)
                   end in
          match u, f with
          | Some u, Some f =>
              Some {| energy_consumption := e; unit := u; factors := f |}
          | _, _ => None
          end
      | _ => None
      end
  | _ => None
  end.

(** The two ends of [handleSubmit]: the state while the request is in
    flight, and the state once it has settled. *)
Inductive Outcome :=
| Resolved (data : PredictionResult)
| Failed (message : string).

Definition handleSubmit_begin (s : State) : State :=
  {| formData := formData s; result := None; loading := true;
     error := None |}.

Definition handleSubmit_settle (s : State) (o : Outcome) : State :=
  match o with
  | Resolved data =>
      {| formData := formData s; result := Some data; loading := false;
         error := error s |}
  | Failed message =>
      {| formData := formData s; result := result s; loading := false;
         error := Some message |}
  end.

Definition handleSubmit (s : State) (o : Outcome) : State :=
  handleSubmit_settle (handleSubmit_begin s) o.

(** [x || 0] for a factor that may be missing. *)
Definition factor_or_zero (x : option Num.Number) : Num.Number :=
  match x with
  | Some v => Num.or_else v (Num.ofZ 0)
  | None => Num.ofZ 0
  end.

Definition getFactorData (s : State) : list (string * Num.Number) :=
  match result s with
  | Some r =>
      match factors r with
      | Some f =>
          [ ("Building Type", factor_or_zero (f_building_type f));
            ("Square Footage", factor_or_zero (f_square_footage f));
            ("Occupants", factor_or_zero (f_number_of_occupants f));
            ("Appliances", factor_or_zero (f_appliances_used f)) ]
      | None => []
      end
  | None => []
  end.

(** What the two result blocks print: the amount
    [(result.energy_consumption/4).toFixed(2)] and the unit
    [result.unit || 'kWh']. *)
Record Amount := { amount_text : string; unit_text : string }.

Definition monthly_text (r : PredictionResult) : string :=
  Text.toFixed (Num.div (energy_consumption r) (Num.ofZ 4)) 2.

Definition unit_label (r : PredictionResult) : string :=
  Next.string_or (unit r) "kWh".

Definition amount (r : PredictionResult) : Amount :=
  {| amount_text := monthly_text r; unit_text := unit_label r |}.

Record View := {
  button_label : string;
  error_box : option string;
  form_result : option Amount;         (* the block under the form *)
  results_card : option (Amount * list (string * Num.Number));
  placeholder : bool;
}.

Definition render (s : State) : View :=
  {| button_label :=
       if loading s then "Predicting..." else "Predict Energy Consumption";
     error_box :=
       match error s with
       | Some e => if String.eqb e "" then None else Some e
       | None => None
       end;
     form_result := option_map amount (result s);
     results_card :=
       option_map (fun r => (amount r, getFactorData s)) (result s);
     placeholder :=
       match result s with
       | None => negb (loading s)
       | Some _ => false
       end |}.

End Home.

(** ** The dataset view *)

Module DatasetPage.

#[local] Open Scope Z_scope.

Record DataRow := {
  building_type : string;
  square_footage : Num.Number;
  number_of_occupants : Num.Number;
  appliances_used : Num.Number;
  energy_consumption : Num.Number;
}.

Inductive Metric :=
| energy_consumption_metric
| square_footage_metric
| number_of_occupants_metric
| appliances_used_metric.

(** [row[selectedMetric]]. *)
Definition metric_of (row : DataRow) (m : Metric) : Num.Number :=
  match m with
  | energy_consumption_metric => energy_consumption row
  | square_footage_metric => square_footage row
  | number_of_occupants_metric => number_of_occupants row
  | appliances_used_metric => appliances_used row
  end.

Record State := {
  dataset : list DataRow;
  loading : bool;
  error : option string;
  page : Z;
  totalPages : Z;
  limit : Z;
  selectedMetric : Metric;
  filterType : string;
}.

Definition initial : State :=
  {| dataset := []; loading := true; error := None; page := 1;
     totalPages := 1; limit := 100;
     selectedMetric := energy_consumption_metric; filterType := "all" |}.

(** *** State updates, event handlers and the effect *)

Inductive Update :=
| setDataset (rows : list DataRow)
| setLoading (b : bool)
| setError (e : option string)
| setPage (p : Z)
| setTotalPages (p : Z)
| setLimit (l : Z)
| setSelectedMetric (m : Metric)
| setFilterType (t : string).

Definition apply_update (s : State) (u : Update) : State :=
  match u with
  | setDataset rows =>
      {| dataset := rows; loading := loading s; error := error s;
         page := page s; totalPages := totalPages s; limit := limit s;
         selectedMetric := selectedMetric s; filterType := filterType s |}
  | setLoading b =>
      {| dataset := dataset s; loading := b; error := error s;
         page := page s; totalPages := totalPages s; limit := limit s;
         selectedMetric := selectedMetric s; filterType := filterType s |}
  | setError e =>
      {| dataset := dataset s; loading := loading s; error := e;
         page := page s; totalPages := totalPages s; limit := limit s;
         selectedMetric := selectedMetric s; filterType := filterType s |}
  | setPage p =>
      {| dataset := dataset s; loading := loading s; error := error s;
         page := p; totalPages := totalPages s; limit := limit s;
         selectedMetric := selectedMetric s; filterType := filterType s |}
  | setTotalPages p =>
      {| dataset := dataset s; loading := loading s; error := error s;
         page := page s; totalPages := p; limit := limit s;
         selectedMetric := selectedMetric s; filterType := filterType s |}
  | setLimit l =>
      {| dataset := dataset s; loading := loading s; error := error s;
         page := page s; totalPages := totalPages s; limit := l;
         selectedMetric := selectedMetric s; filterType := filterType s |}
  | setSelectedMetric m =>
      {| dataset := dataset s; loading := loading s; error := error s;
         page := page s; totalPages := totalPages s; limit := limit s;
         selectedMetric := m; filterType := filterType s |}
  | setFilterType t =>
      {| dataset := dataset s; loading := loading s; error := error s;
         page := page s; totalPages := totalPages s; limit := limit s;
         selectedMetric := selectedMetric s; filterType := t |}
  end.

(** The user's actions; each handler returns the updates it enqueues, in
    the order of its calls. *)
Inductive Event :=
| MetricChange (m : Metric)
| FilterChange (t : string)
| LimitChange (value : Z)      (* [Number(e.target.value)] *)
| Previous
| Next.

Definition handler (s : State) (ev : Event) : list Update :=
  match ev with
  | MetricChange m => [setSelectedMetric m]
  | FilterChange t => [setFilterType t]
  | LimitChange value => [setLimit value; setPage 1]
  | Previous => [setPage (Z.max 1 (page s - 1))]
  | Next => [setPage (Z.min (totalPages s) (page s + 1))]
  end.

(** The request that [fetchDataset] sends from a render whose state is
    [s]. *)
Definition fetchDataset_call (s : State) : Handler.FetchCall :=
  {| Handler.url :=
       ("/api/dataset?page=" ++ Text.int_text (page s) ++
        "&limit=" ++ Text.int_text (limit s))%string;
     Handler.init :=
       {| Handler.method := "GET"; Handler.headers := Next.json_headers;
          Handler.body := None |} |}.

(** The updates [fetchDataset] makes before it waits. *)
Definition fetchDataset_begin (s : State) : State :=
  apply_update (apply_update s (setLoading true)) (setError None).

(** The dependencies [[page, limit]] of the effect differ between two
    renders. *)
Definition deps_changed (old new : State) : bool :=
  negb ((page old =? page new) && (limit old =? limit new)).

(** One user action: the handler runs against the state of the current
    render, its updates are applied together, the component renders
    again, and the effect runs when a dependency has changed; the result
    is the new state and the requests sent. *)
Definition dispatch (s : State) (ev : Event)
  : State * list Handler.FetchCall :=
  let s' := fold_left apply_update (handler s ev) s in
  if deps_changed s s' then (fetchDataset_begin s', [fetchDataset_call s'])
  else (s', []).


(** The end of [fetchDataset]. *)
Inductive Outcome :=
| Resolved (data : list DataRow) (pages : Z)
| Failed (message : string).

Definition fetchDataset_settle (s : State) (o : Outcome) : State :=
  match o with
  | Resolved data pages =>
      fold_left apply_update
        [setDataset data; setTotalPages pages; setLoading false] s
  | Failed message =>
      fold_left apply_update [setError (Some message); setLoading false] s
  end.

(** *** The chart *)

Definition getFilteredData (s : State) : list DataRow :=
  if String.eqb (filterType s) "all" then dataset s
  else List.filter (fun row => String.eqb (building_type row) (filterType s))
              (dataset s).

Definition width : Num.Number := Num.ofZ 1000.
Definition height : Num.Number := Num.ofZ 500.

Record Padding := { top : Num.Number; right : Num.Number;
                    bottom : Num.Number; left : Num.Number }.

Definition padding : Padding :=
  {| top := Num.ofZ 40; right := Num.ofZ 60; bottom := Num.ofZ 60;
     left := Num.ofZ 80 |}.

Definition chartWidth : Num.Number :=
  Num.sub (Num.sub width (left padding)) (right padding).
Definition chartHeight : Num.Number :=
  Num.sub (Num.sub height (top padding)) (bottom padding).

Record Point := {
  x : Num.Number;
  y : Num.Number;
  value : Num.Number;
  buildingType : string;
}.

Record GridLine := { grid_y : Num.Number; grid_label : string }.

(** The [fill] of a data point: a colour, or the member of
    [Object.prototype] found under the name of the building type. *)
Inductive Fill :=
| Colour (c : string)
| Inherited (name : string).

Record Chart := {
  heading : string;
  maxValue : Num.Number;
  minValue : Num.Number;
  range : Num.Number;
  points : list Point;
  pathData : string;
  grid : list GridLine;
  colors : list Fill;
}.

(** [filteredData.length - 1 || 1], on the integer length. *)
Definition last_index_or_1 (n : Z) : Z :=
  if n - 1 =? 0 then 1 else n - 1.

Definition point_of (s : State) (n : Z) (minValue range : Num.Number)
    (i : Z) (row : DataRow) : Point :=
  {| x := Num.add (left padding)
            (Num.mul (Num.div (Num.ofZ i) (Num.ofZ (last_index_or_1 n)))
                     chartWidth);
     y := Num.sub (Num.add (top padding) chartHeight)
            (Num.mul (Num.div (Num.sub (metric_of row (selectedMetric s))
                                       minValue)
                              range)
                     chartHeight);
     value := metric_of row (selectedMetric s);
     buildingType := building_type row |}.

(** [rows.map((row, i) => f(i, row))]. *)
Fixpoint mapi {A B} (f : Z -> A -> B) (i : Z) (l : list A) : list B :=
  match l with
  | [] => []
  | a :: rest => f i a :: mapi f (i + 1) rest
  end.

Definition metricLabel (m : Metric) : string :=
  match m with
  | energy_consumption_metric => "Energy Consumption (kWh)"
  | square_footage_metric => "Square Footage"
  | number_of_occupants_metric => "Number of Occupants"
  | appliances_used_metric => "Appliances Used"
  end.

(** [buildingTypeColors[t] || '#6366F1']: the lookup in the object
    literal finds its three own properties and, under the names of
    [Object.prototype], the inherited members, which are truthy. *)
Definition buildingTypeColor (t : string) : Fill :=
  if String.eqb t "Residential" then Colour "#3B82F6"
  else if String.eqb t "Commercial" then Colour "#10B981"
  else if String.eqb t "Industrial" then Colour "#F59E0B"
  else if existsb (String.eqb t) Js.Object_prototype_names then Inherited t
  else Colour "#6366F1".

Definition path_command (i : Z) (p : Point) : string :=
  let cmd := if i =? 0 then "M"%string else "L"%string in
  (cmd ++ " " ++ Text.Number_toString (x p)
   ++ " " ++ Text.Number_toString (y p))%string.

Definition gridLine (maxValue range : Num.Number) (i : Z) : GridLine :=
  {| grid_y := Num.add (top padding)
                 (Num.mul (Num.div chartHeight (Num.ofZ 4)) (Num.ofZ i));
     grid_label :=
       Text.toFixed
         (Num.sub maxValue (Num.mul (Num.div range (Num.ofZ 4)) (Num.ofZ i)))
         0 |}.

(** The component [LineGraph]; [None] is its [return null]. *)
Definition LineGraph (s : State) : option Chart :=
  let filteredData := getFilteredData s in
  if (length filteredData =? 0)%nat then None
  else
    let values := map (fun row => metric_of row (selectedMetric s))
                      filteredData in
    let maxValue := Num.Math_max values in
    let minValue := Num.Math_min values in
    let range := Num.or_else (Num.sub maxValue minValue) (Num.ofZ 1) in
    let points :=
      mapi (point_of s (Z.of_nat (length filteredData)) minValue range)
           0 filteredData in
    Some {| heading := metricLabel (selectedMetric s);
            maxValue := maxValue; minValue := minValue; range := range;
            points := points;
            pathData := String.concat " " (mapi path_command 0 points);
            grid := map (gridLine maxValue range) [0; 1; 2; 3; 4];
            colors := map (fun p => buildingTypeColor (buildingType p))
                          points |}.

(** What the page shows below the controls. *)
Inductive Body :=
| LoadingMessage            (* "Loading dataset..." *)
| NoDataMessage             (* "No data available" *)
| Graph (chart : option Chart).

Definition render (s : State) : Body :=
  if loading s then LoadingMessage
  else if (length (dataset s) =? 0)%nat then NoDataMessage
  else Graph (LineGraph s).

End DatasetPage.

(** * Vocabulary of the properties *)

Module Spec.
Import Handler Next.

(** The four property names of a prediction input. *)
Definition required_fields : list string :=
  ["building_type"; "square_footage"; "number_of_occupants";
   "appliances_used"].

(** A field is absent from a body when the body is not [null] and reading
    the field gives [undefined]: an object without that property, or a
    value that has no properties of its own. *)
Definition absent (body : Js.Value) (k : string) : Prop :=
  Js.get body k = inr Js.Undefined.

Definition missing_fields_response : NextResponse :=
  {| status := 400;
     data := Js.Object {[ "error" := Js.String "Missing required fields" ]} |}.

Definition prediction_failure_response : NextResponse :=
  {| status := 500;
     data := Js.Object
               {[ "error" := Js.String "Failed to get prediction from backend" ]} |}.

(** The condition under which the [if] of [POST] lets the request
    through to the backend. *)
Definition passes_validation (body : Js.Value) : Prop :=
  exists a b c d,
    PredictRoute.destructure body = inr (a, b, c, d) /\
    Js.truthy a = true /\ Js.is_undefined b = false /\
    Js.is_undefined c = false /\ Js.is_undefined d = false.

(** The request that [POST] sends to the backend for the four values
    read from a body. *)
Definition forwarded_fields (a b c d : Js.Value) : gmap string Js.Value :=
  {[ "building_type" := a; "square_footage" := b;
     "number_of_occupants" := c; "appliances_used" := d ]}.

Definition forwarded_call (w : World) (a b c d : Js.Value) : FetchCall :=
  {| url := (string_or (NEXT_PUBLIC_BACKEND_URL w) "http://localhost:5000"
             ++ "/predict")%string;
     init := {| method := "POST"; headers := json_headers;
                body := Some (Js.to_json
                                (Js.Object (forwarded_fields a b c d))) |} |}.

(** A value that its JSON document gives back as it is: any value that
    JSON can express ([undefined], [NaN], the infinities and [-0] are the
    values it cannot). *)
Definition serialisable (v : Js.Value) : Prop := Js.to_json v = v.

(** The forwarding claim as the specification words it: the four fields
    reach the backend with the values of the incoming body. *)
Definition forwards_the_incoming_values : Prop :=
  forall (w : World) (request : NextRequest) (body : Js.Value),
    json request = Some body ->
    passes_validation body ->
    exists call fwd,
      snd (run (PredictRoute.POST request) w) = [call] /\
      Handler.body (init call) = Some (Js.Object fwd) /\
      forall k, In k required_fields ->
                exists v, Js.get body k = inr v /\ fwd !! k = Some v.

(** The value of a property of a response object, [undefined] when the
    object does not have it. *)
Definition read (o : gmap string Js.Value) (k : string) : Js.Value :=
  default Js.Undefined (o !! k).

(** A field of a backend response is omitted when it is missing or
    nullish. *)
Definition omitted (o : gmap string Js.Value) (k : string) : Prop :=
  Js.is_nullish (read o k) = true.

Definition populated (v : Js.Value) : Prop := Js.is_nullish v = false.

(** A factor of a backend response: omitted when [factors] is, or when
    the factor itself is. *)
Definition factor (o : gmap string Js.Value) (k : string) : Js.Value :=
  match read o "factors" with
  | Js.Undefined | Js.Null => Js.Undefined
  | Js.Object f => read f k
  | _ => Js.Undefined
  end.

Definition factor_omitted (o : gmap string Js.Value) (k : string) : Prop :=
  Js.is_nullish (factor o k) = true.

(** The body of a normalised prediction response for the backend's
    object [o]. *)
Definition or_zero (v : Js.Value) : Js.Value :=
  Js.nullish_or v PredictRoute.zero.

Definition normalized_factors (o : gmap string Js.Value)
  : gmap string Js.Value :=
  {[ "building_type" := or_zero (factor o "building_type");
     "square_footage" := or_zero (factor o "square_footage");
     "number_of_occupants" := or_zero (factor o "number_of_occupants");
     "appliances_used" := or_zero (factor o "appliances_used") ]}.

Definition normalized_fields (o : gmap string Js.Value)
  : gmap string Js.Value :=
  {[ "energy_consumption" := or_zero (read o "energy_consumption");
     "unit" := Js.nullish_or (read o "unit") (Js.String "kWh");
     "factors" := Js.Object (normalized_factors o) ]}.

Definition response_fields : list string :=
  ["energy_consumption"; "unit"; "factors"].

(** The properties of a JSON value: those of an object, none for any
    other value. *)
Definition properties_of (data : Js.Value) : gmap string Js.Value :=
  match data with
  | Js.Object o => o
  | _ => ∅
  end.

(** The normalisation claim as the specification words it: whatever the
    backend answers with a 2xx status, the proxy's body has every field
    populated. *)
Definition every_2xx_reply_is_populated : Prop :=
  forall (w : World) (request : NextRequest) (body a b c d : Js.Value)
         (st : Z) (payload : option Js.Value),
    json request = Some body ->
    PredictRoute.destructure body = inr (a, b, c, d) ->
    Js.truthy a = true -> Js.is_undefined b = false ->
    Js.is_undefined c = false -> Js.is_undefined d = false ->
    backend w (forwarded_call w a b c d) = Replied st payload ->
    (200 <= st <= 299)%Z ->
    exists top,
      fst (run (PredictRoute.POST request) w)
        = inr {| status := 200; data := Js.Object top |} /\
      forall k, In k response_fields ->
                exists v, top !! k = Some v /\ populated v.

(** *** The dataset proxy *)

(** The URL of the backend's dataset listing for two query values. *)
Definition dataset_endpoint (w : World) (page limit : string) : string :=
  (string_or (NEXT_PUBLIC_BACKEND_URL w) "http://127.0.0.1:8000"
   ++ "/dataset?page=" ++ page ++ "&limit=" ++ limit)%string.

Definition is_digit (c : ascii) : bool :=
  ((48 <=? nat_of_ascii c) && (nat_of_ascii c <=? 57))%nat.

(** A string-encoded integer: one decimal digit or more. *)
Definition is_integer_string (s : string) : bool :=
  negb (String.eqb s "") && forallb is_digit (list_ascii_of_string s).

Definition absent_or_malformed (p : option string) : Prop :=
  match p with
  | None => True
  | Some s => is_integer_string s = false
  end.

(** The dataset claim as the specification words it: the defaults are
    used when a parameter is absent or is not an integer string. *)
Definition defaults_when_absent_or_malformed : Prop :=
  forall (w : World) (request : NextRequest),
  exists page limit,
    map url (snd (run (DatasetRoute.GET request) w))
      = [dataset_endpoint w page limit] /\
    (absent_or_malformed (searchParams_get (searchParams request) "page")
     -> page = "1") /\
    (absent_or_malformed (searchParams_get (searchParams request) "limit")
     -> limit = "50").

(** What the code does: the default replaces a parameter that is absent
    or empty, and any other value is forwarded as it is. *)
Definition absent_or_empty (p : option string) : Prop :=
  p = None \/ p = Some ""%string.

(** *** The dataset view *)

(** The request for a page of a given size. *)
Definition dataset_request (page limit : Z) : FetchCall :=
  {| url := ("/api/dataset?page=" ++ Text.int_text page
             ++ "&limit=" ++ Text.int_text limit)%string;
     init := {| method := "GET"; headers := json_headers; body := None |} |}.

(** The values plotted by the chart. *)
Definition plotted (s : DatasetPage.State) : list Num.Number :=
  map (fun row => DatasetPage.metric_of row (DatasetPage.selectedMetric s))
      (DatasetPage.getFilteredData s).

(** The value of a row for the metric selected in the view, field by
    field, as the specification names the four metrics. *)
Definition selected_value (s : DatasetPage.State) (row : DatasetPage.DataRow)
  : Num.Number :=
  match DatasetPage.selectedMetric s with
  | DatasetPage.energy_consumption_metric => DatasetPage.energy_consumption row
  | DatasetPage.square_footage_metric => DatasetPage.square_footage row
  | DatasetPage.number_of_occupants_metric =>
      DatasetPage.number_of_occupants row
  | DatasetPage.appliances_used_metric => DatasetPage.appliances_used row
  end.

Definition selected_values (s : DatasetPage.State) : list Num.Number :=
  map (selected_value s) (DatasetPage.getFilteredData s).

(** The chart formulas as the specification words them. *)
Definition spec_x (i n : Z) : Num.Number :=
  Num.add (DatasetPage.left DatasetPage.padding)
    (Num.mul (Num.div (Num.ofZ i) (Num.ofZ (Z.max (n - 1) 1)))
             DatasetPage.chartWidth).

Definition spec_y (value min range : Num.Number) : Num.Number :=
  Num.sub (Num.add (DatasetPage.top DatasetPage.padding)
                   DatasetPage.chartHeight)
    (Num.mul (Num.div (Num.sub value min) range) DatasetPage.chartHeight).

(** The vertical centre of the chart area (the page places the label of
    the y-axis there), and its bottom edge, where the x-axis is drawn. *)
Definition chart_center_y : Num.Number :=
  Num.add (DatasetPage.top DatasetPage.padding)
          (Num.div DatasetPage.chartHeight (Num.ofZ 2)).

Definition chart_bottom_y : Num.Number :=
  Num.add (DatasetPage.top DatasetPage.padding) DatasetPage.chartHeight.

(** The rows on display all have the value [v] for the selected
    metric. *)
Definition constant_metric (s : DatasetPage.State) (v : Num.Number) : Prop :=
  forall row, In row (DatasetPage.getFilteredData s) ->
              DatasetPage.metric_of row (DatasetPage.selectedMetric s) = v.

(** The constant-series claim as the specification words it. *)
Definition constant_series_at_center : Prop :=
  forall (s : DatasetPage.State) (v : Num.Number),
    DatasetPage.getFilteredData s <> [] ->
    Num.is_finite v = true ->
    constant_metric s v ->
    exists chart,
      DatasetPage.LineGraph s = Some chart /\
      DatasetPage.range chart = Num.ofZ 1 /\
      forall p, In p (DatasetPage.points chart) ->
                DatasetPage.y p = chart_center_y.

(** *** The predictor view *)

(** The rational shown by a numeral with two decimal places: an optional
    minus sign, one digit or more, a point, two digits.  [None] for any
    other string. *)
Definition decimal2_chars (cs : list ascii) : option Q :=
  let k := length cs in
  let a := firstn (k - 3) cs in
  match skipn (k - 3) cs with
  | [dot; c1; c2] =>
      if Ascii.eqb dot "." && negb (length a =? 0)%nat then
        option_map (fun n => (Z.of_N n # 100)%Q)
                   (Text.digits_value (a ++ [c1; c2]))
      else None
  | _ => None
  end.

Definition decimal2_value (s : string) : option Q :=
  match list_ascii_of_string s with
  | "-"%char :: cs => option_map Qopp (decimal2_chars cs)
  | cs => decimal2_chars cs
  end.

(** [s] shows [x] rounded to two decimal places. *)
Definition shows_rounded_to_two_decimals (x : Q) (s : string) : Prop :=
  exists v, decimal2_value s = Some v /\ (Qabs (v - x) <= 1 # 200)%Q.

(** The quarter of a prediction, as the view computes it. *)
Definition quarter (r : Home.PredictionResult) : Num.Number :=
  Num.div (Home.energy_consumption r) (Num.ofZ 4).

(** The display claim as the specification words it, for every result
    with a finite amount. *)
Definition every_result_shows_two_decimals : Prop :=
  forall r : Home.PredictionResult,
    Num.is_finite (Home.energy_consumption r) = true ->
    shows_rounded_to_two_decimals (Num.value (quarter r))
                                  (Home.monthly_text r).

End Spec.

(** * Vocabulary of the further properties *)

Module Behaviour.
Import Handler Next.

Definition dataset_failure_response : NextResponse :=
  {| status := 500;
     data := Js.Object
               {[ "error" := Js.String "Failed to fetch dataset from backend" ]} |}.

(** A prediction response in normal form: exactly the fields
    [energy_consumption], [unit] and [factors], the first two neither
    [null] nor missing, and [factors] an object of exactly the four
    factor fields, none of them [null]. *)
Definition in_normal_form (top : gmap string Js.Value) : Prop :=
  (forall k, is_Some (top !! k) <-> In k Spec.response_fields) /\
  Spec.populated (Spec.read top "energy_consumption") /\
  Spec.populated (Spec.read top "unit") /\
  exists f,
    top !! "factors" = Some (Js.Object f) /\
    (forall k, is_Some (f !! k) <-> In k Spec.required_fields) /\
    (forall k, In k Spec.required_fields -> Spec.populated (Spec.read f k)).

(** A status of the 2xx class. *)
Definition is_2xx (st : Z) : Prop := (200 <= st <= 299)%Z.

(** The call that [GET] makes for a request. *)
Definition dataset_call (w : World) (request : NextRequest) : FetchCall :=
  {| url := Spec.dataset_endpoint w
              (string_or (searchParams_get (searchParams request) "page") "1")
              (string_or (searchParams_get (searchParams request) "limit") "50");
     init := {| method := "GET"; headers := json_headers; body := None |} |}.

(** *** The order of numbers *)

Definition is_NaN (x : Num.Number) : bool :=
  match x with S754_nan => true | _ => false end.

(** A number that is not [NaN] is placed by its class ([-Infinity],
    negative, zero, positive, [+Infinity]), then by its exponent, then by
    its mantissa; [<] compares these three ranks in turn. *)
Definition rank1 (x : Num.Number) : Z :=
  match x with
  | S754_infinity true => -2
  | S754_finite true _ _ => -1
  | S754_zero _ => 0
  | S754_finite false _ _ => 1
  | S754_infinity false => 2
  | S754_nan => 3
  end.

Definition rank2 (x : Num.Number) : Z :=
  match x with
  | S754_finite true _ e => - e
  | S754_finite false _ e => e
  | _ => 0
  end.

Definition rank3 (x : Num.Number) : Z :=
  match x with
  | S754_finite true m _ => Zneg m
  | S754_finite false m _ => Zpos m
  | _ => 0
  end.

Definition precedes (x y : Num.Number) : Prop :=
  (rank1 x < rank1 y \/
   (rank1 x = rank1 y /\
    (rank2 x < rank2 y \/ (rank2 x = rank2 y /\ rank3 x < rank3 y))))%Z.

End Behaviour.

(** * Properties *)

(** ** The prediction proxy *)

Section PredictRouteFacts.
Import Handler Next PredictRoute Spec.

Lemma get_not_nullish (body : Js.Value) (k : string) :
  Js.is_nullish body = false ->
  exists v, Js.get body k = inr v.
Proof. destruct body; simpl; intros H; try discriminate; eauto. Qed.

Lemma destructure_not_nullish (body : Js.Value) :
  Js.is_nullish body = false ->
  exists a b c d,
    Js.get body "building_type" = inr a /\
    Js.get body "square_footage" = inr b /\
    Js.get body "number_of_occupants" = inr c /\
    Js.get body "appliances_used" = inr d /\
    destructure body = inr (a, b, c, d).
Proof.
  intros H. unfold destructure.
  destruct (get_not_nullish body "building_type" H) as [a ->].
  destruct (get_not_nullish body "square_footage" H) as [b ->].
  destruct (get_not_nullish body "number_of_occupants" H) as [c ->].
  destruct (get_not_nullish body "appliances_used" H) as [d ->].
  exists a, b, c, d. repeat split.
Qed.

(** Any body that can be destructured and misses a field is answered
    with the 400 response, before any call to the backend. *)
Lemma POST_missing_field (w : World) (request : NextRequest)
    (body : Js.Value) (k : string) :
  json request = Some body ->
  Js.is_nullish body = false ->
  In k required_fields ->
  absent body k ->
  run (POST request) w = (inr missing_fields_response, []).
Proof.
  intros Hjson Hnn Hk Habs.
  destruct (destructure_not_nullish body Hnn)
    as (a & b & c & d & Ha & Hb & Hc & Hd & Hdes).
  assert (Hguard : negb (Js.truthy a) || Js.is_undefined b
                   || Js.is_undefined c || Js.is_undefined d = true).
  { unfold absent in Habs. simpl in Hk.
    destruct Hk as [<- | [<- | [<- | [<- | []]]]];
      rewrite Habs in *;
      [ injection Ha as <- | injection Hb as <-
      | injection Hc as <- | injection Hd as <- ];
      simpl; rewrite ?orb_true_r; reflexivity. }
  unfold run, POST, try_catch, bind, request_json, lift.
  rewrite Hjson. unfold ret at 1. rewrite Hdes, Hguard. reflexivity.
Qed.

(** A body that passes the validation is forwarded in one call, and the
    handler answers 200 or 500 after it. *)
Lemma POST_validated (w : World) (request : NextRequest)
    (body a b c d : Js.Value) :
  json request = Some body ->
  destructure body = inr (a, b, c, d) ->
  Js.truthy a = true -> Js.is_undefined b = false ->
  Js.is_undefined c = false -> Js.is_undefined d = false ->
  exists r,
    run (POST request) w = (inr r, [forwarded_call w a b c d]) /\
    (status r = 200%Z \/ r = prediction_failure_response).
Proof.
  intros Hjson Hdes Ha Hb Hc Hd.
  unfold run, POST, try_catch, bind, request_json, lift.
  rewrite Hjson. unfold ret at 1. rewrite Hdes, Ha, Hb, Hc, Hd.
  cbv beta iota. unfold env_backend_url, fetch.
  change (negb true || false || false || false) with false. cbv iota.
  cbv beta.
  fold (forwarded_fields a b c d). fold (forwarded_call w a b c d).
  destruct (backend w (forwarded_call w a b c d)) as [|st payload].
  - eexists. split; [reflexivity | right; reflexivity].
  - cbv beta iota. destruct (ok _).
    + cbv [negb]. unfold response_json. cbv [resp_json].
      destruct payload as [v|].
      * unfold ret at 1. destruct (normalize v) as [e|n].
        -- eexists. split; [reflexivity | right; reflexivity].
        -- eexists. split; [reflexivity | left; reflexivity].
      * eexists. split; [reflexivity | right; reflexivity].
    + eexists. split; [reflexivity | right; reflexivity].
Qed.

Lemma destructure_inv (body a b c d : Js.Value) :
  destructure body = inr (a, b, c, d) ->
  Js.get body "building_type" = inr a /\
  Js.get body "square_footage" = inr b /\
  Js.get body "number_of_occupants" = inr c /\
  Js.get body "appliances_used" = inr d.
Proof.
  unfold destructure.
  destruct (Js.get body "building_type"), (Js.get body "square_footage"),
    (Js.get body "number_of_occupants"), (Js.get body "appliances_used");
    intros H; try discriminate.
  injection H as -> -> -> ->. repeat split.
Qed.

Lemma forwarded_fields_keys (a b c d : Js.Value) (k : string) :
  is_Some (forwarded_fields a b c d !! k) <-> In k required_fields.
Proof.
  unfold forwarded_fields, required_fields. simpl.
  rewrite !lookup_insert_is_Some, lookup_singleton_is_Some.
  split.
  - intros [H | [_ [H | [_ [H | [_ H]]]]]]; subst; auto 6.
  - intros [<- | [<- | [<- | [<- | []]]]];
      [ left; reflexivity
      | right; split; [discriminate | left; reflexivity]
      | right; split; [discriminate |];
        right; split; [discriminate | left; reflexivity]
      | right; split; [discriminate |];
        right; split; [discriminate |];
        right; split; [discriminate | reflexivity] ].
Qed.

Lemma normalize_object (o : gmap string Js.Value) :
  normalize (Js.Object o) = inr (Js.Object (normalized_fields o)).
Proof.
  unfold normalize, normalized_fields, normalized_factors, factor, or_zero.
  cbn [Js.get]. fold (read o "factors").
  destruct (read o "factors"); reflexivity.
Qed.

(** *** Claims *)

(** C2 (evaluated at the body [null]).  The claim asks for the 400
    response "Missing required fields" whenever a required field is
    absent from a JSON body.  For the JSON body [null], where all four
    are absent, destructuring throws, the [catch] block answers, and the
    handler returns the 500 response "Failed to get prediction from
    backend", without a call to the backend. *)
Theorem POST_null_body_is_answered_500 (w : World) :
  run (POST {| searchParams := []; json := Some Js.Null |}) w
    = (inr prediction_failure_response, []) /\
  prediction_failure_response <> missing_fields_response.
Proof. split; [reflexivity | discriminate]. Qed.

(** C9.  A body whose [square_footage] is present but [null], with a
    truthy [building_type] and the two other fields present, passes the
    validation: the handler calls the backend once, the document it
    sends has [null] as [square_footage], and its answer is not the 400
    response. *)
Theorem POST_null_numeric_field_is_forwarded (w : World)
    (request : NextRequest) (o : gmap string Js.Value)
    (bt occ app : Js.Value) :
  json request = Some (Js.Object o) ->
  o !! "building_type" = Some bt -> Js.truthy bt = true ->
  o !! "square_footage" = Some Js.Null ->
  o !! "number_of_occupants" = Some occ -> Js.is_undefined occ = false ->
  o !! "appliances_used" = Some app -> Js.is_undefined app = false ->
  passes_validation (Js.Object o) /\
  exists r,
    run (POST request) w = (inr r, [forwarded_call w bt Js.Null occ app]) /\
    forwarded_fields bt Js.Null occ app !! "square_footage" = Some Js.Null /\
    r <> missing_fields_response /\
    exists sent,
      Handler.body (init (forwarded_call w bt Js.Null occ app))
        = Some (Js.Object sent) /\
      sent !! "square_footage" = Some Js.Null.
Proof.
  intros Hjson Hbt Htruthy Hsf Hocc Hocc' Happ Happ'.
  assert (Hdes : destructure (Js.Object o) = inr (bt, Js.Null, occ, app)).
  { unfold destructure. cbn [Js.get]. rewrite Hbt, Hsf, Hocc, Happ.
    reflexivity. }
  split.
  - exists bt, Js.Null, occ, app. repeat split; assumption.
  - destruct (POST_validated w request _ _ _ _ _ Hjson Hdes Htruthy
                eq_refl Hocc' Happ') as (r & Hrun & Hst).
    exists r. split; [exact Hrun | split; [reflexivity |]].
    split.
    + destruct Hst as [Hst | ->]; [| discriminate].
      intros ->. discriminate.
    + exists (omap Js.json_prop (forwarded_fields bt Js.Null occ app)).
      split; [reflexivity |].
      rewrite lookup_omap.
      change (forwarded_fields bt Js.Null occ app !! "square_footage")
        with (Some Js.Null).
      reflexivity.
Qed.

Lemma POST_null_numeric_field_is_forwarded_witness :
  let o : gmap string Js.Value :=
    {[ "building_type" := Js.String "Residential";
       "square_footage" := Js.Null;
       "number_of_occupants" := Js.Number (Num.ofZ 4);
       "appliances_used" := Js.Number (Num.ofZ 20) ]} in
  let w := {| NEXT_PUBLIC_BACKEND_URL := None;
              backend := fun _ => Rejected |} in
  let request := {| searchParams := []; json := Some (Js.Object o) |} in
  passes_validation (Js.Object o) /\
  exists r,
    run (POST request) w
      = (inr r, [forwarded_call w (Js.String "Residential") Js.Null
                   (Js.Number (Num.ofZ 4)) (Js.Number (Num.ofZ 20))]) /\
    forwarded_fields (Js.String "Residential") Js.Null
      (Js.Number (Num.ofZ 4)) (Js.Number (Num.ofZ 20)) !! "square_footage"
      = Some Js.Null /\
    r <> missing_fields_response /\
    exists sent,
      Handler.body (init (forwarded_call w (Js.String "Residential") Js.Null
                            (Js.Number (Num.ofZ 4)) (Js.Number (Num.ofZ 20))))
        = Some (Js.Object sent) /\
      sent !! "square_footage" = Some Js.Null.
Proof.
  intros o w request.
  apply (POST_null_numeric_field_is_forwarded w request o
           (Js.String "Residential") (Js.Number (Num.ofZ 4))
           (Js.Number (Num.ofZ 20))); reflexivity.
Defined.

Lemma json_prop_defined (v : Js.Value) :
  Js.is_undefined v = false -> Js.json_prop v = Some (Js.to_json v).
Proof. destruct v; try discriminate; reflexivity. Qed.

Lemma truthy_defined (v : Js.Value) :
  Js.truthy v = true -> Js.is_undefined v = false.
Proof. destruct v; try discriminate; reflexivity. Qed.

(** The scalars that JSON can express are serialisable: [null], the
    booleans, the strings and the finite numbers other than [-0]. *)
Lemma scalar_serialisable (v : Js.Value) :
  match v with
  | Js.Null | Js.Bool _ | Js.String _ => True
  | Js.Number x => Num.is_finite x = true /\ x <> S754_zero true
  | _ => False
  end ->
  serialisable v.
Proof.
  destruct v as [| | b | x | s | items | props]; try contradiction;
    try reflexivity.
  intros [Hfin Hz]. unfold serialisable.
  destruct x as [[|] | [|] | | sg m e]; try discriminate;
    try reflexivity.
  contradiction Hz. reflexivity.
Qed.

(** A number out of the range of binary64 is not: its document is
    [null]. *)
Lemma infinity_not_serialisable :
  Js.to_json (Js.Number Num.Infinity) = Js.Null /\
  ~ serialisable (Js.Number Num.Infinity).
Proof. split; [reflexivity | discriminate]. Qed.

(** The document sent for four values none of which is [undefined] has
    the four fields, each with the document of its value. *)
Lemma sent_fields_lookup (a b c d : Js.Value) (k : string) :
  Js.is_undefined a = false -> Js.is_undefined b = false ->
  Js.is_undefined c = false -> Js.is_undefined d = false ->
  omap Js.json_prop (forwarded_fields a b c d) !! k
    = Js.to_json <$> (forwarded_fields a b c d !! k).
Proof.
  intros Ha Hb Hc Hd. rewrite lookup_omap.
  destruct (forwarded_fields a b c d !! k) as [v |] eqn:E; [| reflexivity].
  cbn. apply json_prop_defined.
  unfold forwarded_fields in E.
  apply lookup_insert_Some in E as [[_ <-] | [_ E]]; [exact Ha |].
  apply lookup_insert_Some in E as [[_ <-] | [_ E]]; [exact Hb |].
  apply lookup_insert_Some in E as [[_ <-] | [_ E]]; [exact Hc |].
  apply lookup_singleton_Some in E as [_ <-]. exact Hd.
Qed.

(** C6 (as stated, refuted).  A body whose [square_footage] is a number
    beyond the range of binary64 (read as [Infinity]) passes the
    validation, and the document sent to the backend has [null] for it,
    not the value of the incoming body. *)
Lemma POST_forwards_null_for_a_number_out_of_range :
  ~ forwards_the_incoming_values.
Proof.
  intros H.
  pose (body := Js.Object
                  {[ "building_type" := Js.String "Residential";
                     "square_footage" := Js.Number Num.Infinity;
                     "number_of_occupants" := Js.Number (Num.ofZ 4);
                     "appliances_used" := Js.Number (Num.ofZ 20) ]}).
  destruct (H {| NEXT_PUBLIC_BACKEND_URL := None;
                 backend := fun _ => Rejected |}
              {| searchParams := []; json := Some body |} body eq_refl)
    as (call & fwd & Hcall & Hbody & Hvalues).
  { exists (Js.String "Residential"), (Js.Number Num.Infinity),
      (Js.Number (Num.ofZ 4)), (Js.Number (Num.ofZ 20)).
    repeat split; reflexivity. }
  vm_compute in Hcall. injection Hcall as <-.
  cbn [init Handler.body] in Hbody. injection Hbody as <-.
  destruct (Hvalues "square_footage"%string) as (v & Hv & Hfwd).
  { right. left. reflexivity. }
  vm_compute in Hv. injection Hv as <-.
  vm_compute in Hfwd. discriminate Hfwd.
Qed.

(** C6 (amended).  For a body that passes the validation, the handler
    makes one call to the backend, and the document sent with that call
    is an object with exactly the four fields [building_type],
    [square_footage], [number_of_occupants], [appliances_used], each
    with the JSON document of the value read from the incoming body,
    which is that value itself whenever JSON can express it; no other
    field of the incoming body is forwarded. *)
Theorem POST_forwards_exactly_the_four_fields (w : World)
    (request : NextRequest) (body : Js.Value) :
  json request = Some body ->
  passes_validation body ->
  exists call fwd,
    snd (run (POST request) w) = [call] /\
    url call = (string_or (NEXT_PUBLIC_BACKEND_URL w) "http://localhost:5000"
                ++ "/predict")%string /\
    method (init call) = "POST" /\
    Handler.body (init call) = Some (Js.Object fwd) /\
    (forall k, is_Some (fwd !! k) <-> In k required_fields) /\
    (forall k, In k required_fields ->
               exists v, Js.get body k = inr v /\
                         fwd !! k = Some (Js.to_json v) /\
                         (serialisable v -> fwd !! k = Some v)).
Proof.
  intros Hjson (a & b & c & d & Hdes & Ha & Hb & Hc & Hd).
  destruct (POST_validated w request body a b c d Hjson Hdes Ha Hb Hc Hd)
    as (r & Hrun & _).
  pose proof (truthy_defined a Ha) as Ha'.
  exists (forwarded_call w a b c d),
    (omap Js.json_prop (forwarded_fields a b c d)).
  rewrite Hrun.
  destruct (destructure_inv _ _ _ _ _ Hdes) as (Ga & Gb & Gc & Gd).
  split; [reflexivity |]. split; [reflexivity |].
  split; [reflexivity |]. split; [reflexivity |]. split.
  - intros k. rewrite sent_fields_lookup by assumption.
    rewrite <- forwarded_fields_keys with (a := a) (b := b) (c := c) (d := d).
    destruct (forwarded_fields a b c d !! k); cbn; split;
      intros [x Hx]; try discriminate; eauto.
  - intros k Hk. rewrite sent_fields_lookup by assumption.
    simpl in Hk.
    assert (Hsame : forall v, serialisable v ->
                      Some (Js.to_json v) = Some v).
    { intros v Hv. f_equal. exact Hv. }
    destruct Hk as [<- | [<- | [<- | [<- | []]]]]; eexists;
      (split; [eassumption | split; [reflexivity | apply Hsame]]).
Qed.

Lemma POST_forwards_exactly_the_four_fields_witness :
  let body :=
    Js.Object
      {[ "building_type" := Js.String "Residential";
         "square_footage" := Js.Number (Num.ofZ 250);
         "number_of_occupants" := Js.Number (Num.ofZ 4);
         "appliances_used" := Js.Number (Num.ofZ 20);
         "comment" := Js.String "not forwarded" ]} in
  let w := {| NEXT_PUBLIC_BACKEND_URL := None;
              backend := fun _ => Rejected |} in
  let request := {| searchParams := []; json := Some body |} in
  exists call fwd,
    snd (run (POST request) w) = [call] /\
    url call = "http://localhost:5000/predict" /\
    method (init call) = "POST" /\
    Handler.body (init call) = Some (Js.Object fwd) /\
    (forall k, is_Some (fwd !! k) <-> In k required_fields) /\
    (forall k, In k required_fields ->
               exists v, Js.get body k = inr v /\
                         fwd !! k = Some (Js.to_json v) /\
                         (serialisable v -> fwd !! k = Some v)).
Proof.
  intros body w request.
  apply (POST_forwards_exactly_the_four_fields w request body);
    [ reflexivity | ].
  exists (Js.String "Residential"), (Js.Number (Num.ofZ 250)),
    (Js.Number (Num.ofZ 4)), (Js.Number (Num.ofZ 20)).
  repeat split; reflexivity.
Defined.

Lemma or_zero_populated (v : Js.Value) : populated (or_zero v).
Proof. destruct v; reflexivity. Qed.

Lemma or_zero_omitted (v : Js.Value) :
  Js.is_nullish v = true -> or_zero v = zero.
Proof. unfold or_zero, Js.nullish_or. intros ->. reflexivity. Qed.

Lemma or_zero_given (v : Js.Value) :
  Js.is_nullish v = false -> or_zero v = v.
Proof. unfold or_zero, Js.nullish_or. intros ->. reflexivity. Qed.

Lemma normalized_factors_lookup (o : gmap string Js.Value) (k : string) :
  In k required_fields ->
  normalized_factors o !! k = Some (or_zero (factor o k)).
Proof.
  simpl. intros [<- | [<- | [<- | [<- | []]]]]; reflexivity.
Qed.

Lemma normalized_factors_keys (o : gmap string Js.Value) (k : string) :
  is_Some (normalized_factors o !! k) <-> In k required_fields.
Proof.
  exact (forwarded_fields_keys
           (or_zero (factor o "building_type"))
           (or_zero (factor o "square_footage"))
           (or_zero (factor o "number_of_occupants"))
           (or_zero (factor o "appliances_used")) k).
Qed.

Lemma normalized_fields_keys (o : gmap string Js.Value) (k : string) :
  is_Some (normalized_fields o !! k) <-> In k response_fields.
Proof.
  unfold normalized_fields, response_fields. simpl.
  rewrite !lookup_insert_is_Some, lookup_singleton_is_Some.
  split.
  - intros [H | [_ [H | [_ H]]]]; subst; auto.
  - intros [<- | [<- | [<- | []]]];
      [ left; reflexivity
      | right; split; [discriminate | left; reflexivity]
      | right; split; [discriminate |];
        right; split; [discriminate | reflexivity] ].
Qed.

Lemma factor_omitted_with_factors (o : gmap string Js.Value) (k : string) :
  omitted o "factors" -> factor_omitted o k.
Proof.
  unfold omitted, factor_omitted, factor.
  destruct (read o "factors"); simpl; intros H; try discriminate;
    reflexivity.
Qed.

Lemma normalize_value (data : Js.Value) :
  Js.is_nullish data = false ->
  normalize data = inr (Js.Object (normalized_fields (properties_of data))).
Proof.
  destruct data; try discriminate; intros _; try reflexivity.
  apply normalize_object.
Qed.

Lemma omap_json_prop_lookup (m : gmap string Js.Value) (k : string) :
  (forall v, m !! k = Some v -> Js.is_undefined v = false) ->
  omap Js.json_prop m !! k = Js.to_json <$> (m !! k).
Proof.
  intros H. rewrite lookup_omap.
  destruct (m !! k) as [v |]; [| reflexivity].
  cbn. apply json_prop_defined, H. reflexivity.
Qed.

Lemma populated_defined (v : Js.Value) :
  populated v -> Js.is_undefined v = false.
Proof. destruct v; try discriminate; reflexivity. Qed.

Lemma normalized_factors_defined (o : gmap string Js.Value) (k : string)
    (v : Js.Value) :
  normalized_factors o !! k = Some v -> populated v.
Proof.
  unfold normalized_factors. intros E.
  apply lookup_insert_Some in E as [[_ <-] | [_ E]];
    [apply or_zero_populated |].
  apply lookup_insert_Some in E as [[_ <-] | [_ E]];
    [apply or_zero_populated |].
  apply lookup_insert_Some in E as [[_ <-] | [_ E]];
    [apply or_zero_populated |].
  apply lookup_singleton_Some in E as [_ <-]. apply or_zero_populated.
Qed.

Lemma nullish_or_populated (v d : Js.Value) :
  populated d -> populated (Js.nullish_or v d).
Proof.
  unfold populated, Js.nullish_or. intros Hd.
  destruct (Js.is_nullish v) eqn:E; assumption.
Qed.

Lemma normalized_fields_defined (o : gmap string Js.Value) (k : string)
    (v : Js.Value) :
  normalized_fields o !! k = Some v -> populated v.
Proof.
  unfold normalized_fields. intros E.
  apply lookup_insert_Some in E as [[_ <-] | [_ E]];
    [apply or_zero_populated |].
  apply lookup_insert_Some in E as [[_ <-] | [_ E]];
    [apply nullish_or_populated; reflexivity |].
  apply lookup_singleton_Some in E as [_ <-]. reflexivity.
Qed.

(** The field that the proxy returns for a value [v] of the backend and
    a default [d]. *)
Lemma returned_field (v d : Js.Value) :
  populated d -> serialisable d ->
  (Js.is_nullish v = true ->
   Js.to_json (Js.nullish_or v d) = d /\
   populated (Js.to_json (Js.nullish_or v d))) /\
  (Js.is_nullish v <> true ->
   Js.to_json (Js.nullish_or v d) = Js.to_json v /\
   (serialisable v ->
    Js.to_json (Js.nullish_or v d) = v /\
    populated (Js.to_json (Js.nullish_or v d)))).
Proof.
  intros Hd Hs. unfold Js.nullish_or. split.
  - intros ->. rewrite Hs. split; [reflexivity | assumption].
  - intros Hv. destruct (Js.is_nullish v) eqn:E; [congruence |].
    split; [reflexivity |].
    intros Hsv. rewrite Hsv. split; [reflexivity | exact E].
Qed.

(** C4 (as stated, refuted).  A 2xx answer of the backend whose body is
    the JSON value [null] is answered 500 with an error body: reading a
    field of [null] throws. *)
Lemma POST_null_reply_is_not_populated : ~ every_2xx_reply_is_populated.
Proof.
  intros H.
  destruct (H {| NEXT_PUBLIC_BACKEND_URL := None;
                 backend := fun _ => Replied 200 (Some Js.Null) |}
              {| searchParams := [];
                 json := Some (Home.formData_value
                                 (Home.formData Home.initial)) |}
              (Home.formData_value (Home.formData Home.initial))
              (Js.String "Residential") (Js.Number (Num.ofZ 250))
              (Js.Number (Num.ofZ 4)) (Js.Number (Num.ofZ 20))
              200%Z (Some Js.Null))
    as (top & Hrun & _); try reflexivity.
  { split; discriminate. }
  vm_compute in Hrun. discriminate Hrun.
Qed.

(** C4 (amended).  When the backend answers a forwarded prediction
    request with a 2xx status and a JSON body other than [null], the
    proxy answers 200 with an object of exactly the fields
    [energy_consumption], [unit] and [factors].  [energy_consumption] is
    [0] when the body omits it and [unit] is ['kWh'] when the body omits
    it; [factors] is an object of exactly the four factor fields, each
    [0] when [factors] or the field itself is omitted.  A field that the
    body gives is returned as the JSON document of its value: the value
    itself whenever JSON can express it.  A field that is defaulted, or
    given with a value that JSON can express, is populated.  In
    particular, all four factors are [0] when the body has no
    [factors]. *)
Theorem POST_populates_every_field (w : World) (request : NextRequest)
    (body a b c d : Js.Value) (st : Z) (reply : Js.Value) :
  json request = Some body ->
  destructure body = inr (a, b, c, d) ->
  Js.truthy a = true -> Js.is_undefined b = false ->
  Js.is_undefined c = false -> Js.is_undefined d = false ->
  backend w (forwarded_call w a b c d) = Replied st (Some reply) ->
  (200 <= st <= 299)%Z ->
  Js.is_nullish reply = false ->
  let o := properties_of reply in
  exists top factors,
    fst (run (POST request) w)
      = inr {| status := 200; data := Js.Object top |} /\
    (forall k, is_Some (top !! k) <-> In k response_fields) /\
    (exists e, top !! "energy_consumption" = Some e /\
       (omitted o "energy_consumption" ->
        e = Js.Number (Num.ofZ 0) /\ populated e) /\
       (~ omitted o "energy_consumption" ->
        e = Js.to_json (read o "energy_consumption") /\
        (serialisable (read o "energy_consumption") ->
         e = read o "energy_consumption" /\ populated e))) /\
    (exists u, top !! "unit" = Some u /\
       (omitted o "unit" -> u = Js.String "kWh" /\ populated u) /\
       (~ omitted o "unit" ->
        u = Js.to_json (read o "unit") /\
        (serialisable (read o "unit") ->
         u = read o "unit" /\ populated u))) /\
    top !! "factors" = Some (Js.Object factors) /\
    (forall k, is_Some (factors !! k) <-> In k required_fields) /\
    (forall k, In k required_fields ->
       exists v, factors !! k = Some v /\
         (factor_omitted o k -> v = Js.Number (Num.ofZ 0) /\ populated v) /\
         (~ factor_omitted o k ->
          v = Js.to_json (factor o k) /\
          (serialisable (factor o k) ->
           v = factor o k /\ populated v))) /\
    (omitted o "factors" ->
     forall k, In k required_fields ->
       factors !! k = Some (Js.Number (Num.ofZ 0))).
Proof.
  intros Hjson Hdes Ha Hb Hc Hd Hreply [Hlo Hhi] Hnn o.
  exists (omap Js.json_prop (normalized_fields o)),
    (omap Js.json_prop (normalized_factors o)).
  assert (Htop : forall k,
            omap Js.json_prop (normalized_fields o) !! k
              = Js.to_json <$> (normalized_fields o !! k)).
  { intros k. apply omap_json_prop_lookup.
    intros v Hv. apply populated_defined.
    apply (normalized_fields_defined o k v Hv). }
  assert (Hfac : forall k,
            omap Js.json_prop (normalized_factors o) !! k
              = Js.to_json <$> (normalized_factors o !! k)).
  { intros k. apply omap_json_prop_lookup.
    intros v Hv. apply populated_defined.
    apply (normalized_factors_defined o k v Hv). }
  split.
  { unfold run, POST, try_catch, bind, request_json, lift.
    rewrite Hjson. unfold ret at 1. rewrite Hdes, Ha, Hb, Hc, Hd.
    cbv beta iota. unfold env_backend_url, fetch.
    change (negb true || false || false || false) with false.
    cbv beta iota.
    fold (forwarded_fields a b c d). fold (forwarded_call w a b c d).
    rewrite Hreply. cbv beta iota. unfold ok. cbv [resp_status].
    apply Z.leb_le in Hlo, Hhi. rewrite Hlo, Hhi.
    cbv [andb negb]. unfold response_json. cbv [resp_json].
    unfold ret at 1. rewrite (normalize_value reply Hnn). reflexivity. }
  split.
  { intros k. rewrite Htop, fmap_is_Some.
    apply normalized_fields_keys. }
  split.
  { exists (Js.to_json (or_zero (read o "energy_consumption"))).
    split; [rewrite Htop; reflexivity |].
    destruct (returned_field (read o "energy_consumption") zero
                eq_refl eq_refl) as [Hom Hgiven].
    split; [exact Hom |].
    intros H. apply Hgiven. exact H. }
  split.
  { exists (Js.to_json (Js.nullish_or (read o "unit") (Js.String "kWh"))).
    split; [rewrite Htop; reflexivity |].
    destruct (returned_field (read o "unit") (Js.String "kWh")
                eq_refl eq_refl) as [Hom Hgiven].
    split; [exact Hom |].
    intros H. apply Hgiven. exact H. }
  split; [rewrite Htop; reflexivity |].
  split.
  { intros k. rewrite Hfac, fmap_is_Some.
    apply normalized_factors_keys. }
  split.
  { intros k Hk. exists (Js.to_json (or_zero (factor o k))).
    split; [rewrite Hfac, normalized_factors_lookup by exact Hk;
            reflexivity |].
    destruct (returned_field (factor o k) zero eq_refl eq_refl)
      as [Hom Hgiven].
    split; [exact Hom |].
    intros H. apply Hgiven. exact H. }
  intros Hom k Hk.
  rewrite Hfac, normalized_factors_lookup by exact Hk. cbn.
  f_equal.
  destruct (returned_field (factor o k) zero eq_refl eq_refl) as [H0 _].
  apply H0. apply factor_omitted_with_factors. exact Hom.
Qed.

Lemma POST_populates_every_field_witness :
  let body := Home.formData_value (Home.formData Home.initial) in
  let reply := Js.Object {[ "energy_consumption" := Js.Number (Num.ofZ 400) ]} in
  let w := {| NEXT_PUBLIC_BACKEND_URL := None;
              backend := fun _ => Replied 200 (Some reply) |} in
  let request := {| searchParams := []; json := Some body |} in
  let o := properties_of reply in
  exists top factors,
    fst (run (POST request) w)
      = inr {| status := 200; data := Js.Object top |} /\
    (forall k, is_Some (top !! k) <-> In k response_fields) /\
    (exists e, top !! "energy_consumption" = Some e /\
       (omitted o "energy_consumption" ->
        e = Js.Number (Num.ofZ 0) /\ populated e) /\
       (~ omitted o "energy_consumption" ->
        e = Js.to_json (read o "energy_consumption") /\
        (serialisable (read o "energy_consumption") ->
         e = read o "energy_consumption" /\ populated e))) /\
    (exists u, top !! "unit" = Some u /\
       (omitted o "unit" -> u = Js.String "kWh" /\ populated u) /\
       (~ omitted o "unit" ->
        u = Js.to_json (read o "unit") /\
        (serialisable (read o "unit") ->
         u = read o "unit" /\ populated u))) /\
    top !! "factors" = Some (Js.Object factors) /\
    (forall k, is_Some (factors !! k) <-> In k required_fields) /\
    (forall k, In k required_fields ->
       exists v, factors !! k = Some v /\
         (factor_omitted o k -> v = Js.Number (Num.ofZ 0) /\ populated v) /\
         (~ factor_omitted o k ->
          v = Js.to_json (factor o k) /\
          (serialisable (factor o k) ->
           v = factor o k /\ populated v))) /\
    (omitted o "factors" ->
     forall k, In k required_fields ->
       factors !! k = Some (Js.Number (Num.ofZ 0))).
Proof.
  intros body reply w request.
  apply (POST_populates_every_field w request body
           (Js.String "Residential") (Js.Number (Num.ofZ 250))
           (Js.Number (Num.ofZ 4)) (Js.Number (Num.ofZ 20)) 200 reply);
    try reflexivity.
  split; [vm_compute | vm_compute]; discriminate.
Defined.

End PredictRouteFacts.

(** ** The dataset proxy *)

Section DatasetRouteFacts.
Import Handler Next DatasetRoute Spec.

Lemma string_or_absent_or_empty (p : option string) (d : string) :
  absent_or_empty p -> string_or p d = d.
Proof. intros [-> | ->]; reflexivity. Qed.

Lemma string_or_given (v d : string) :
  v <> ""%string -> string_or (Some v) d = v.
Proof.
  intros H. unfold string_or.
  destruct (String.eqb_spec v ""); [contradiction | reflexivity].
Qed.

(** The handler makes one call, to the endpoint built from the two
    values it has chosen. *)
Lemma GET_calls_endpoint (w : World) (request : NextRequest) :
  map url (snd (run (GET request) w))
    = [dataset_endpoint w
         (string_or (searchParams_get (searchParams request) "page") "1")
         (string_or (searchParams_get (searchParams request) "limit") "50")].
Proof.
  unfold run, GET, try_catch, bind, env_backend_url, fetch. cbv beta iota.
  fold (dataset_endpoint w
          (string_or (searchParams_get (searchParams request) "page") "1")
          (string_or (searchParams_get (searchParams request) "limit") "50")).
  destruct (backend w _) as [|st payload]; [reflexivity |].
  cbv beta iota. destruct (ok _); [| reflexivity].
  cbv [negb]. unfold response_json. cbv [resp_json].
  destruct payload as [data |]; [| reflexivity].
  destruct data; reflexivity.
Qed.

(** C8 (as stated, refuted).  With [page=abc] in the query, the handler
    forwards [page=abc] to the backend, not the default [page=1]. *)
Lemma GET_malformed_page_is_not_defaulted :
  ~ defaults_when_absent_or_malformed.
Proof.
  intros H.
  destruct (H {| NEXT_PUBLIC_BACKEND_URL := None;
                 backend := fun _ => Rejected |}
              {| searchParams := [("page", "abc")]; json := None |})
    as (page & limit & Hurl & Hpage & _).
  rewrite (Hpage eq_refl) in Hurl.
  vm_compute in Hurl. discriminate Hurl.
Qed.

(** C8 (amended).  For every request, the dataset proxy calls [fetch]
    once, and the URL it hands to [fetch] is the string
    [BACKEND_URL/dataset?page=P&limit=L], where [P] is ["1"] when the
    [page] parameter is absent or empty and otherwise the decoded value
    of the parameter, inserted as it is (not validated, also when it is
    not an integer, and not encoded again), and [L] is ["50"] when
    [limit] is absent or empty and otherwise the decoded value of the
    parameter, inserted as it is. *)
Theorem GET_defaults_when_absent_or_empty (w : World)
    (request : NextRequest) :
  exists page limit,
    map url (snd (run (GET request) w)) = [dataset_endpoint w page limit] /\
    (absent_or_empty (searchParams_get (searchParams request) "page")
     -> page = "1") /\
    (forall v, searchParams_get (searchParams request) "page" = Some v ->
               v <> ""%string -> page = v) /\
    (absent_or_empty (searchParams_get (searchParams request) "limit")
     -> limit = "50") /\
    (forall v, searchParams_get (searchParams request) "limit" = Some v ->
               v <> ""%string -> limit = v).
Proof.
  exists (string_or (searchParams_get (searchParams request) "page") "1"),
    (string_or (searchParams_get (searchParams request) "limit") "50").
  split; [apply GET_calls_endpoint |].
  repeat split.
  - apply string_or_absent_or_empty.
  - intros v -> Hv. apply string_or_given, Hv.
  - apply string_or_absent_or_empty.
  - intros v -> Hv. apply string_or_given, Hv.
Qed.

End DatasetRouteFacts.

(** ** Numbers *)

Section NumFacts.
Import Num.

Lemma SFcompare_refl_finite (x : Number) :
  is_finite x = true -> SFcompare x x = Some Eq.
Proof.
  destruct x as [s | s | | s m e]; try discriminate; intros _;
    [reflexivity |].
  cbn. rewrite Z.compare_refl, Pos.compare_cont_refl.
  destruct s; reflexivity.
Qed.

Lemma gt_irrefl (x : Number) : is_finite x = true -> gt x x = false.
Proof.
  intros H. unfold gt, SFltb. rewrite SFcompare_refl_finite by exact H.
  reflexivity.
Qed.

Lemma lt_irrefl (x : Number) : is_finite x = true -> lt x x = false.
Proof. apply gt_irrefl. Qed.

Lemma max_step_same (v : Number) :
  is_finite v = true -> max_step v v = v.
Proof.
  intros H. unfold max_step. rewrite gt_irrefl by exact H.
  destruct v as [[|] | | |]; try discriminate; reflexivity.
Qed.

Lemma min_step_same (v : Number) :
  is_finite v = true -> min_step v v = v.
Proof.
  intros H. unfold min_step. rewrite lt_irrefl by exact H.
  destruct v as [[|] | | |]; try discriminate; reflexivity.
Qed.

Lemma max_step_first (v : Number) :
  is_finite v = true -> max_step NegInfinity v = v.
Proof. destruct v as [[|] | | | [|] ? ?]; try discriminate; reflexivity. Qed.

Lemma min_step_first (v : Number) :
  is_finite v = true -> min_step Infinity v = v.
Proof. destruct v as [[|] | | | [|] ? ?]; try discriminate; reflexivity. Qed.

Lemma fold_max_constant (v : Number) (values : list Number) :
  is_finite v = true ->
  (forall u, In u values -> u = v) ->
  fold_left max_step values v = v.
Proof.
  intros Hv. induction values as [| u rest IH]; intros Hall; [reflexivity |].
  cbn [fold_left]. rewrite (Hall u) by (left; reflexivity).
  rewrite max_step_same by exact Hv.
  apply IH. intros u' Hu'. apply Hall. right. exact Hu'.
Qed.

Lemma fold_min_constant (v : Number) (values : list Number) :
  is_finite v = true ->
  (forall u, In u values -> u = v) ->
  fold_left min_step values v = v.
Proof.
  intros Hv. induction values as [| u rest IH]; intros Hall; [reflexivity |].
  cbn [fold_left]. rewrite (Hall u) by (left; reflexivity).
  rewrite min_step_same by exact Hv.
  apply IH. intros u' Hu'. apply Hall. right. exact Hu'.
Qed.

(** The largest and the smallest of a non-empty series of equal finite
    numbers is that number. *)
Lemma Num_Math_max_constant (v : Number) (values : list Number) :
  is_finite v = true -> values <> [] ->
  (forall u, In u values -> u = v) ->
  Math_max values = v.
Proof.
  intros Hv Hne Hall. destruct values as [| u rest]; [contradiction |].
  unfold Math_max. cbn [fold_left].
  rewrite (Hall u) by (left; reflexivity).
  rewrite max_step_first by exact Hv.
  apply fold_max_constant; [exact Hv |].
  intros u' Hu'. apply Hall. right. exact Hu'.
Qed.

Lemma Num_Math_min_constant (v : Number) (values : list Number) :
  is_finite v = true -> values <> [] ->
  (forall u, In u values -> u = v) ->
  Math_min values = v.
Proof.
  intros Hv Hne Hall. destruct values as [| u rest]; [contradiction |].
  unfold Math_min. cbn [fold_left].
  rewrite (Hall u) by (left; reflexivity).
  rewrite min_step_first by exact Hv.
  apply fold_min_constant; [exact Hv |].
  intros u' Hu'. apply Hall. right. exact Hu'.
Qed.

(** A finite number minus itself is [+0]. *)
Lemma Num_sub_diag (v : Number) :
  is_finite v = true -> sub v v = S754_zero false.
Proof.
  destruct v as [s | s | | s m e]; try discriminate; intros _.
  - destruct s; reflexivity.
  - unfold sub, SFsub. cbv zeta. rewrite Z.sub_diag. reflexivity.
Qed.

End NumFacts.

(** ** Decimal numerals *)

Section TextFacts.
Import Text Spec.

Lemma digits_value_digits (n : N) : digits_value (digits n) = Some n.
Proof.
  unfold digits_value, digits.
  rewrite string_of_list_ascii_of_string, NilEmpty.usu. cbn.
  f_equal. apply DecimalN.Unsigned.of_to.
Qed.


Lemma digits_value_zero_cons (l : list ascii) :
  digits_value ("0"%char :: l) = digits_value l.
Proof.
  unfold digits_value. cbn [string_of_list_ascii NilEmpty.uint_of_string].
  destruct (NilEmpty.uint_of_string (string_of_list_ascii l)); reflexivity.
Qed.

Lemma digits_value_zeros (k : nat) (l : list ascii) :
  digits_value (zeros k ++ l) = digits_value l.
Proof.
  induction k as [| k IH]; [reflexivity |].
  cbn. rewrite digits_value_zero_cons. exact IH.
Qed.

(** A numeral does not start with a minus sign. *)
Lemma digits_value_head (c : ascii) (l : list ascii) (n : N) :
  digits_value (c :: l) = Some n -> c <> "-"%char.
Proof.
  unfold digits_value. cbn [string_of_list_ascii NilEmpty.uint_of_string].
  intros H ->.
  destruct (NilEmpty.uint_of_string (string_of_list_ascii l));
    discriminate H.
Qed.

(** The parts of [n.toFixed(2)]: digits, a point, two digits, and the
    digits together read [n]. *)
Lemma fixed_digits_2 (n : N) :
  exists a b,
    fixed_digits (Z.of_N n) 2 = a ++ "."%char :: b /\
    a <> [] /\ length b = 2%nat /\
    digits_value (a ++ b) = Some n.
Proof.
  unfold fixed_digits. rewrite N2Z.id.
  set (m := if (length (digits n) <=? 2)%nat
            then zeros (2 + 1 - length (digits n)) ++ digits n
            else digits n).
  assert (Hval : digits_value m = Some n).
  { subst m. destruct (_ <=? _)%nat;
      rewrite ?digits_value_zeros; apply digits_value_digits. }
  assert (Hlen : (3 <= length m)%nat).
  { subst m. destruct (Nat.leb_spec (length (digits n)) 2) as [H | H].
    - rewrite length_app. unfold zeros. rewrite repeat_length. lia.
    - lia. }
  exists (firstn (length m - 2) m), (skipn (length m - 2) m).
  split; [reflexivity |]. split; [| split].
  - intros H. apply (f_equal (@length ascii)) in H.
    rewrite length_firstn in H. cbn in H. lia.
  - rewrite length_skipn. lia.
  - rewrite firstn_skipn. exact Hval.
Qed.

Lemma decimal2_chars_parts (a b : list ascii) (n : N) :
  a <> [] -> length b = 2%nat -> digits_value (a ++ b) = Some n ->
  decimal2_chars (a ++ "."%char :: b) = Some (Z.of_N n # 100)%Q.
Proof.
  intros Ha Hb Hval.
  destruct b as [| c1 [| c2 [| ? ?]]]; try discriminate Hb.
  unfold decimal2_chars.
  replace (length (a ++ "."%char :: [c1; c2]) - 3)%nat with (length a)
    by (rewrite length_app; cbn; lia).
  rewrite firstn_app, Nat.sub_diag, firstn_all, app_nil_r.
  rewrite skipn_app, Nat.sub_diag, skipn_all. cbn [skipn app].
  destruct a as [| c a']; [contradiction |].
  rewrite Hval. reflexivity.
Qed.

Lemma decimal2_value_unsigned (a b : list ascii) (n : N) :
  a <> [] -> length b = 2%nat -> digits_value (a ++ b) = Some n ->
  decimal2_value (string_of_list_ascii (a ++ "."%char :: b))
    = Some (Z.of_N n # 100)%Q.
Proof.
  intros Ha Hb Hval. unfold decimal2_value.
  rewrite list_ascii_of_string_of_list_ascii.
  pose proof (decimal2_chars_parts a b n Ha Hb Hval) as H.
  destruct a as [| c a']; [contradiction |].
  pose proof (digits_value_head c (a' ++ b) n Hval) as Hc.
  cbn [app] in *.
  destruct (Ascii.eqb_spec c "-"); [contradiction |].
  destruct c as [[|] [|] [|] [|] [|] [|] [|] [|]]; try exact H.
  contradiction.
Qed.

Lemma decimal2_value_signed (a b : list ascii) (n : N) :
  a <> [] -> length b = 2%nat -> digits_value (a ++ b) = Some n ->
  decimal2_value (string_of_list_ascii ("-"%char :: a ++ "."%char :: b))
    = Some (- (Z.of_N n # 100))%Q.
Proof.
  intros Ha Hb Hval. unfold decimal2_value.
  rewrite list_ascii_of_string_of_list_ascii.
  rewrite (decimal2_chars_parts a b n Ha Hb Hval). reflexivity.
Qed.

(** The integer chosen by [toFixed] is within one half of the scaled
    number. *)
Lemma nearest_scaled_2 (v : Q) :
  (0 <= v)%Q ->
  (0 <= nearest_scaled v 2)%Z /\
  (Qabs ((nearest_scaled v 2 # 100) - v) <= 1 # 200)%Q.
Proof.
  intros Hv. unfold nearest_scaled.
  change (pow10 (Z.of_nat 2)) with ((10 # 1) * (10 # 1))%Q.
  set (y := (v * ((10 # 1) * (10 # 1)) + (1 # 2))%Q).
  pose proof (Qfloor_le y) as Hlo.
  pose proof (Qlt_floor y) as Hhi.
  rewrite inject_Z_plus in Hhi.
  assert (H0 : (0 <= Qfloor y)%Z).
  { change 0%Z with (Qfloor 0). apply Qfloor_resp_le. subst y. lra. }
  split; [exact H0 |].
  rewrite (Qmake_Qdiv (Qfloor y) 100).
  apply Qabs_Qle_condition. subst y.
  change (inject_Z 1) with 1%Q in Hhi.
  change (inject_Z (Z.pos 100)) with (100 # 1)%Q.
  set (n := inject_Z (Qfloor (v * ((10 # 1) * (10 # 1)) + (1 # 2)))) in *.
  clearbody n. clear H0.
  assert (E : (n / (100 # 1) == n * (1 # 100))%Q) by field.
  rewrite E. lra.
Qed.

(** [x.toFixed(2)], for a finite [x] below [10^21] in magnitude, is a
    numeral with two decimal places within [1/200] of [x]. *)
Lemma toFixed_2_shows_rounded (x : Num.Number) :
  Num.is_finite x = true ->
  (Qabs (Num.value x) < pow10 21)%Q ->
  shows_rounded_to_two_decimals (Num.value x) (toFixed x 2).
Proof.
  intros Hfin Hsmall. unfold toFixed, toFixed_chars. rewrite Hfin.
  cbv [negb]. set (v := Num.value x) in *. set (B := pow10 21) in *.
  apply Qabs_Qlt_condition in Hsmall.
  unfold Qltb. destruct (Qle_bool 0 v) eqn:Hsign; cbv [negb].
  - apply Qle_bool_iff in Hsign.
    destruct (Qle_bool B v) eqn:Hbig.
    { apply Qle_bool_iff in Hbig. lra. }
    destruct (nearest_scaled_2 v Hsign) as [Hn Hclose].
    destruct (fixed_digits_2 (Z.to_N (nearest_scaled v 2)))
      as (a & b & Hparts & Ha & Hb & Hval).
    rewrite Z2N.id in Hparts by exact Hn.
    cbn [app]. rewrite Hparts.
    exists (Z.of_N (Z.to_N (nearest_scaled v 2)) # 100)%Q.
    split; [apply decimal2_value_unsigned; assumption |].
    rewrite Z2N.id by exact Hn. exact Hclose.
  - assert (Hlt : (v < 0)%Q).
    { apply Qnot_le_lt. intros H. apply Qle_bool_iff in H. congruence. }
    assert (Hpos : (0 <= - v)%Q) by lra.
    destruct (Qle_bool B (- v)) eqn:Hbig.
    { apply Qle_bool_iff in Hbig. lra. }
    destruct (nearest_scaled_2 (- v) Hpos) as [Hn Hclose].
    destruct (fixed_digits_2 (Z.to_N (nearest_scaled (- v) 2)))
      as (a & b & Hparts & Ha & Hb & Hval).
    rewrite Z2N.id in Hparts by exact Hn.
    rewrite Hparts.
    exists (- (Z.of_N (Z.to_N (nearest_scaled (- v) 2)) # 100))%Q.
    split; [apply decimal2_value_signed; assumption |].
    rewrite Z2N.id by exact Hn.
    apply Qabs_Qle_condition in Hclose. apply Qabs_Qle_condition.
    set (q := (nearest_scaled (- v) 2 # 100)%Q) in *. lra.
Qed.

(** A few values of the two conversions, as a browser prints them. *)
Example toFixed_examples :
  map (fun '(a, b) => toFixed (Num.div (Num.ofZ a) (Num.ofZ b)) 2)
      [(400, 4); (1005, 1000); (5, 1000); (-1, 8); (-1, 1000); (0, 1);
       (1, 3); (10 ^ 21, 1)]%Z
  = ["100.00"; "1.00"; "0.01"; "-0.13"; "-0.00"; "0.00"; "0.33";
     "1e+21"]%string.
Proof. vm_compute. reflexivity. Qed.

Example Number_toString_examples :
  map (fun '(a, b) => Number_toString (Num.div (Num.ofZ a) (Num.ofZ b)))
      [(1, 10); (100, 1); (1, 1000000); (1, 10000000); (10 ^ 21, 1);
       (2 ^ 70, 1); (123456, 1000); (1, 3); (-25, 1); (2 ^ 53 + 1, 1)]%Z
  = ["0.1"; "100"; "0.000001"; "1e-7"; "1e+21"; "1.1805916207174113e+21";
     "123.456"; "0.3333333333333333"; "-25"; "9007199254740992"]%string.
Proof. vm_compute. reflexivity. Qed.

End TextFacts.

(** ** The dataset view *)

Section DatasetPageFacts.
Import DatasetPage Spec.
#[local] Open Scope Z_scope.

(** *** Pagination *)

(** C5.  Whatever the state, a change of the limit to [value] leaves the
    view with [page = 1] and [limit = value]; every request it triggers
    asks for page 1 with the new limit, and one such request is sent
    whenever the limit (or the page) has changed. *)
Theorem limit_change_requests_page_1 (s : State) (value : Z) :
  page (fst (dispatch s (LimitChange value))) = 1 /\
  limit (fst (dispatch s (LimitChange value))) = value /\
  (forall call, In call (snd (dispatch s (LimitChange value))) ->
                call = dataset_request 1 value) /\
  (value <> limit s \/ page s <> 1 ->
   snd (dispatch s (LimitChange value)) = [dataset_request 1 value]).
Proof.
  unfold dispatch. cbn [handler fold_left apply_update].
  destruct (deps_changed _ _) eqn:E.
  - repeat split.
    + intros call [<- | []]. reflexivity.
  - unfold deps_changed in E. cbn in E.
    apply negb_false_iff, andb_true_iff in E.
    destruct E as [E1%Z.eqb_eq E2%Z.eqb_eq].
    repeat split.
    + intros call [].
    + intros [H | H]; congruence.
Qed.

(** *** What is shown below the controls *)

(** C10.  When the page has finished loading a non-empty dataset and the
    building-type filter matches none of its rows, [LineGraph] returns
    [null] and the page shows nothing in place of the chart, not the
    "No data available" message; that message is shown exactly when the
    page is not loading and the fetched dataset itself is empty. *)
Theorem filtered_out_page_renders_nothing (s : State) :
  loading s = false ->
  dataset s <> [] ->
  getFilteredData s = [] ->
  LineGraph s = None /\ render s = Graph None /\
  forall s', render s' = NoDataMessage <->
             loading s' = false /\ dataset s' = [].
Proof.
  intros Hload Hdata Hfilt.
  assert (HL : LineGraph s = None).
  { unfold LineGraph. rewrite Hfilt. reflexivity. }
  split; [exact HL |]. split.
  - unfold render. rewrite Hload, HL.
    destruct (dataset s); [contradiction | reflexivity].
  - intros s'. unfold render.
    destruct (loading s'); [split; [discriminate | intros [? _]; discriminate] |].
    destruct (dataset s'); cbn; split; try discriminate; auto.
    intros [_ ?]; discriminate.
Qed.

Lemma filtered_out_page_renders_nothing_witness :
  let row := {| building_type := "Residential";
                square_footage := Num.ofZ 250;
                number_of_occupants := Num.ofZ 4;
                appliances_used := Num.ofZ 20;
                energy_consumption := Num.ofZ 400 |} in
  let s := apply_update
             (fetchDataset_settle initial (Resolved [row] 1))
             (setFilterType "Industrial") in
  LineGraph s = None /\ render s = Graph None /\
  forall s', render s' = NoDataMessage <->
             loading s' = false /\ dataset s' = [].
Proof.
  intros row s.
  apply (filtered_out_page_renders_nothing s);
    [reflexivity | discriminate | reflexivity].
Defined.

(** *** The chart *)

Lemma mapi_lookup {A B} (f : Z -> A -> B) (l : list A) :
  forall (k : Z) (i : nat),
    mapi f k l !! i = f (k + Z.of_nat i) <$> (l !! i).
Proof.
  induction l as [| a rest IH]; intros k i; [destruct i; reflexivity |].
  destruct i as [| i].
  - cbn. rewrite Z.add_0_r. reflexivity.
  - cbn [mapi]. change ((f k a :: mapi f (k + 1) rest) !! S i)
      with (mapi f (k + 1) rest !! i).
    rewrite IH. change ((a :: rest) !! S i) with (rest !! i).
    replace (k + 1 + Z.of_nat i) with (k + Z.of_nat (S i)) by lia.
    reflexivity.
Qed.

Lemma mapi_length {A B} (f : Z -> A -> B) (l : list A) :
  forall k, length (mapi f k l) = length l.
Proof.
  induction l as [| a rest IH]; intros k; [reflexivity |].
  cbn. rewrite IH. reflexivity.
Qed.

Lemma mapi_In {A B} (f : Z -> A -> B) (l : list A) :
  forall k b, In b (mapi f k l) -> exists i a, In a l /\ b = f i a.
Proof.
  induction l as [| a rest IH]; intros k b; [intros [] |].
  cbn. intros [<- | H].
  - exists k, a. split; [left; reflexivity | reflexivity].
  - destruct (IH _ _ H) as (i & a' & Ha' & ->).
    exists i, a'. split; [right; exact Ha' | reflexivity].
Qed.

Lemma last_index_or_1_max (n : Z) :
  1 <= n -> last_index_or_1 n = Z.max (n - 1) 1.
Proof.
  intros H. unfold last_index_or_1.
  destruct (Z.eqb_spec (n - 1) 0); lia.
Qed.

Lemma point_of_spec (s : State) (n : Z) (min range : Num.Number)
    (i : Z) (row : DataRow) :
  1 <= n ->
  x (point_of s n min range i row) = spec_x i n /\
  y (point_of s n min range i row)
    = spec_y (metric_of row (selectedMetric s)) min range.
Proof.
  intros H. unfold point_of, spec_x, spec_y. cbn [x y].
  rewrite last_index_or_1_max by exact H. split; reflexivity.
Qed.

Lemma LineGraph_points (s : State) :
  getFilteredData s <> [] ->
  exists chart,
    LineGraph s = Some chart /\
    maxValue chart = Num.Math_max (plotted s) /\
    minValue chart = Num.Math_min (plotted s) /\
    range chart = Num.or_else (Num.sub (maxValue chart) (minValue chart))
                              (Num.ofZ 1) /\
    points chart
      = mapi (point_of s (Z.of_nat (length (getFilteredData s)))
                (minValue chart) (range chart))
             0 (getFilteredData s).
Proof.
  intros Hne. unfold LineGraph.
  destruct (getFilteredData s) as [| row rest] eqn:E; [contradiction |].
  cbn [length Nat.eqb]. eexists. split; [reflexivity |].
  unfold plotted. rewrite E. repeat split.
Qed.

Lemma filtered_length_pos (s : State) :
  getFilteredData s <> [] -> 1 <= Z.of_nat (length (getFilteredData s)).
Proof. destruct (getFilteredData s); [contradiction | cbn; lia]. Qed.

(** [row[selectedMetric]] is the field of the row that the selected
    metric names. *)
Lemma metric_of_selected (s : State) (row : DataRow) :
  metric_of row (selectedMetric s) = selected_value s row.
Proof. unfold selected_value. destruct (selectedMetric s); reflexivity. Qed.

Lemma plotted_selected (s : State) : plotted s = selected_values s.
Proof.
  unfold plotted, selected_values. apply map_ext.
  intros row. apply metric_of_selected.
Qed.

(** C7.  For a non-empty filtered row set of [n] rows the chart has one
    point per row, in order; the point of row [i] has
    [x = left + (i / max(n-1,1)) * chartWidth] and
    [y = top + chartHeight - ((value - min) / range) * chartHeight],
    where [value] is the field of the row that the selected metric names
    ([energy_consumption], [square_footage], [number_of_occupants] or
    [appliances_used]) and [min], [range] are those of the chart
    ([range = max - min || 1] over these values of the rows on display);
    [chartWidth = 1000 - 80 - 60] and [chartHeight = 500 - 40 - 60]. *)
Theorem chart_points_follow_the_formulas (s : State) :
  getFilteredData s <> [] ->
  exists chart,
    LineGraph s = Some chart /\
    length (points chart) = length (getFilteredData s) /\
    (forall (i : nat) (row : DataRow),
       getFilteredData s !! i = Some row ->
       exists p,
         points chart !! i = Some p /\
         x p = spec_x (Z.of_nat i) (Z.of_nat (length (getFilteredData s))) /\
         y p = spec_y (selected_value s row)
                      (minValue chart) (range chart) /\
         value p = selected_value s row) /\
    minValue chart = Num.Math_min (selected_values s) /\
    range chart
      = Num.or_else (Num.sub (Num.Math_max (selected_values s))
                             (Num.Math_min (selected_values s)))
                    (Num.ofZ 1) /\
    chartWidth = Num.ofZ (1000 - 80 - 60) /\
    chartHeight = Num.ofZ (500 - 40 - 60).
Proof.
  intros Hne.
  destruct (LineGraph_points s Hne)
    as (chart & HL & Hmax & Hmin & Hrange & Hpoints).
  rewrite plotted_selected in Hmax, Hmin.
  exists chart. split; [exact HL |]. split.
  { rewrite Hpoints. apply mapi_length. }
  split.
  { intros i row Hrow. rewrite Hpoints, mapi_lookup, Hrow. cbn [fmap option_fmap option_map].
    eexists. split; [reflexivity |].
    destruct (point_of_spec s (Z.of_nat (length (getFilteredData s)))
                (minValue chart) (range chart) (0 + Z.of_nat i) row
                (filtered_length_pos s Hne)) as [Hx Hy].
    rewrite Z.add_0_l in Hx, Hy. rewrite metric_of_selected in Hy.
    split; [exact Hx |]. split; [exact Hy |].
    apply metric_of_selected. }
  split; [exact Hmin |]. split.
  { rewrite Hrange, Hmax, Hmin. reflexivity. }
  split; vm_compute; reflexivity.
Qed.

Lemma chart_points_follow_the_formulas_witness :
  let row a v := {| building_type := "Residential";
                    square_footage := Num.ofZ a;
                    number_of_occupants := Num.ofZ 4;
                    appliances_used := Num.ofZ 20;
                    energy_consumption := Num.ofZ v |} in
  let s := apply_update
             (fetchDataset_settle initial
                (Resolved [row 250 10; row 120 30] 1))
             (setSelectedMetric square_footage_metric) in
  exists chart,
    LineGraph s = Some chart /\
    length (points chart) = length (getFilteredData s) /\
    (forall (i : nat) (row : DataRow),
       getFilteredData s !! i = Some row ->
       exists p,
         points chart !! i = Some p /\
         x p = spec_x (Z.of_nat i) (Z.of_nat (length (getFilteredData s))) /\
         y p = spec_y (selected_value s row)
                      (minValue chart) (range chart) /\
         value p = selected_value s row) /\
    minValue chart = Num.Math_min (selected_values s) /\
    range chart
      = Num.or_else (Num.sub (Num.Math_max (selected_values s))
                             (Num.Math_min (selected_values s)))
                    (Num.ofZ 1) /\
    chartWidth = Num.ofZ (1000 - 80 - 60) /\
    chartHeight = Num.ofZ (500 - 40 - 60).
Proof.
  intros row s.
  apply (chart_points_follow_the_formulas s). discriminate.
Defined.

(** C3 (as stated, refuted).  One row whose metric is 10 is a constant
    series; its point is drawn at [y = 440], not at the centre
    [y = 240]. *)
Lemma constant_series_is_not_at_center : ~ constant_series_at_center.
Proof.
  intros H.
  pose (row := {| building_type := "Residential";
                  square_footage := Num.ofZ 250;
                  number_of_occupants := Num.ofZ 4;
                  appliances_used := Num.ofZ 20;
                  energy_consumption := Num.ofZ 10 |}).
  pose (s := fetchDataset_settle initial (Resolved [row] 1)).
  destruct (H s (Num.ofZ 10)) as (chart & HL & _ & Hy).
  - discriminate.
  - reflexivity.
  - intros r [<- | []]. reflexivity.
  - vm_compute in HL. injection HL as <-.
    specialize (Hy _ (or_introl eq_refl)).
    vm_compute in Hy. discriminate Hy.
Qed.

(** C3 (amended).  For a non-empty filtered row set whose rows all have
    the same finite value [v] for the selected metric, the chart has
    [max = min = v], the range falls back to 1, and every point has
    [y = top + chartHeight = 440], the bottom edge of the chart area. *)
Theorem constant_series_is_at_the_bottom (s : State) (v : Num.Number) :
  getFilteredData s <> [] ->
  Num.is_finite v = true ->
  constant_metric s v ->
  exists chart,
    LineGraph s = Some chart /\
    maxValue chart = v /\ minValue chart = v /\
    range chart = Num.ofZ 1 /\
    (forall p, In p (points chart) -> y p = chart_bottom_y) /\
    chart_bottom_y = Num.ofZ 440.
Proof.
  intros Hne Hv Hconst.
  destruct (LineGraph_points s Hne)
    as (chart & HL & Hmax & Hmin & Hrange & Hpoints).
  assert (Hall : forall u, In u (plotted s) -> u = v).
  { intros u Hu. unfold plotted in Hu. apply in_map_iff in Hu.
    destruct Hu as (row & <- & Hrow). apply Hconst, Hrow. }
  assert (Hplotted : plotted s <> []).
  { unfold plotted. destruct (getFilteredData s); [contradiction |].
    discriminate. }
  rewrite (Num_Math_max_constant v) in Hmax by assumption.
  rewrite (Num_Math_min_constant v) in Hmin by assumption.
  rewrite Hmax, Hmin, Num_sub_diag in Hrange by exact Hv.
  change (Num.or_else (S754_zero false) (Num.ofZ 1)) with (Num.ofZ 1)
    in Hrange.
  exists chart. repeat split; try assumption.
  intros p Hp. rewrite Hpoints in Hp.
  apply mapi_In in Hp. destruct Hp as (i & row & Hrow & ->).
  unfold point_of. cbn [y].
  rewrite (Hconst row Hrow), Hmin, Hrange, Num_sub_diag by exact Hv.
  vm_compute. reflexivity.
Qed.

Lemma constant_series_is_at_the_bottom_witness :
  let row t := {| building_type := t;
                  square_footage := Num.ofZ 250;
                  number_of_occupants := Num.ofZ 4;
                  appliances_used := Num.ofZ 20;
                  energy_consumption := Num.ofZ 10 |} in
  let s := fetchDataset_settle initial
             (Resolved [row "Residential"; row "Commercial"] 1) in
  exists chart,
    LineGraph s = Some chart /\
    maxValue chart = Num.ofZ 10 /\ minValue chart = Num.ofZ 10 /\
    range chart = Num.ofZ 1 /\
    (forall p, In p (points chart) -> y p = chart_bottom_y) /\
    chart_bottom_y = Num.ofZ 440.
Proof.
  intros row s.
  apply (constant_series_is_at_the_bottom s (Num.ofZ 10)).
  - discriminate.
  - reflexivity.
  - intros r [<- | [<- | []]]; reflexivity.
Defined.

End DatasetPageFacts.

(** ** The predictor view *)

Section HomeFacts.
Import Home Spec.

(** C1 (as stated, refuted).  For [energy_consumption = 4e21] the view
    prints [1e+21], which is not a numeral with two decimal places. *)
Lemma large_amount_is_not_shown_with_two_decimals :
  ~ every_result_shows_two_decimals.
Proof.
  intros H.
  destruct (H {| energy_consumption := Num.ofZ (4 * 10 ^ 21);
                 unit := Some "kWh"%string; factors := None |} eq_refl)
    as (v & Hv & _).
  vm_compute in Hv. discriminate Hv.
Qed.

(** C1 (amended).  For every prediction result whose quarter
    [energy_consumption / 4] is finite and below [10^21] in magnitude,
    both result blocks of the view print that quarter rounded to two
    decimal places, followed by the unit of the result, or [kWh] when
    the result has none; for [energy_consumption = 400] and unit
    ["kWh"] they print [100.00] and [kWh]. *)
Theorem monthly_amount_is_the_quarter_rounded (s : State)
    (r : PredictionResult) :
  result s = Some r ->
  Num.is_finite (quarter r) = true ->
  (Qabs (Num.value (quarter r)) < Text.pow10 21)%Q ->
  form_result (render s) = Some (amount r) /\
  option_map fst (results_card (render s)) = Some (amount r) /\
  shows_rounded_to_two_decimals (Num.value (quarter r))
                                (amount_text (amount r)) /\
  (unit r = None \/ unit r = Some ""%string ->
   unit_text (amount r) = "kWh"%string) /\
  (forall u, unit r = Some u -> u <> ""%string ->
             unit_text (amount r) = u) /\
  amount {| energy_consumption := Num.ofZ 400; unit := Some "kWh"%string;
            factors := None |}
    = {| amount_text := "100.00"; unit_text := "kWh" |}.
Proof.
  intros Hres Hfin Hsmall. unfold render. cbn [form_result results_card].
  rewrite Hres. cbn [option_map fst].
  split; [reflexivity |]. split; [reflexivity |]. split.
  { apply toFixed_2_shows_rounded; assumption. }
  split; [| split].
  - cbn [amount unit_text]. unfold unit_label.
    intros [-> | ->]; reflexivity.
  - cbn [amount unit_text]. unfold unit_label.
    intros u -> Hu. apply string_or_given, Hu.
  - vm_compute. reflexivity.
Qed.

Lemma monthly_amount_is_the_quarter_rounded_witness :
  let r := {| energy_consumption := Num.ofZ 1005; unit := None;
              factors := None |} in
  let s := handleSubmit initial (Resolved r) in
  form_result (render s) = Some (amount r) /\
  option_map fst (results_card (render s)) = Some (amount r) /\
  shows_rounded_to_two_decimals (Num.value (quarter r))
                                (amount_text (amount r)) /\
  (unit r = None \/ unit r = Some ""%string ->
   unit_text (amount r) = "kWh"%string) /\
  (forall u, unit r = Some u -> u <> ""%string ->
             unit_text (amount r) = u) /\
  amount {| energy_consumption := Num.ofZ 400; unit := Some "kWh"%string;
            factors := None |}
    = {| amount_text := "100.00"; unit_text := "kWh" |}.
Proof.
  intros r s.
  apply (monthly_amount_is_the_quarter_rounded s r);
    [reflexivity | reflexivity | vm_compute; reflexivity].
Defined.

(** The scenario of the specification, end to end: the form's initial
    input is posted to the proxy, the backend answers
    [{energy_consumption: 400, unit: "kWh"}], the proxy forwards the four
    fields and normalises the answer, and the view prints [100.00 kWh]. *)
Example prediction_of_400_kWh_is_shown_as_100 :
  let o : gmap string Js.Value :=
    {[ "energy_consumption" := Js.Number (Num.ofZ 400);
       "unit" := Js.String "kWh" ]} in
  let w := {| Handler.NEXT_PUBLIC_BACKEND_URL := None;
              Handler.backend :=
                fun _ => Handler.Replied 200 (Some (Js.Object o)) |} in
  let request := {| Next.searchParams := [];
                    Next.json := Some (formData_value (formData initial)) |} in
  let response := {| Next.status := 200;
                     Next.data := Js.Object (normalized_fields o) |} in
  let r := {| energy_consumption := Num.ofZ 400; unit := Some "kWh"%string;
              factors := Some {| f_building_type := Some (Num.ofZ 0);
                                 f_square_footage := Some (Num.ofZ 0);
                                 f_number_of_occupants := Some (Num.ofZ 0);
                                 f_appliances_used := Some (Num.ofZ 0) |} |} in
  Handler.run (PredictRoute.POST request) w
    = (inr response,
       [forwarded_call w (Js.String "Residential") (Js.Number (Num.ofZ 250))
          (Js.Number (Num.ofZ 4)) (Js.Number (Num.ofZ 20))]) /\
  as_PredictionResult (Next.data response) = Some r /\
  form_result (render (handleSubmit initial (Resolved r)))
    = Some {| amount_text := "100.00"; unit_text := "kWh" |}.
Proof.
  intros o w request response r.
  split; [| split]; vm_compute; reflexivity.
Qed.

End HomeFacts.

(** * Further properties of the code *)

(** ** The prediction proxy: validation and failures *)

Section PredictRouteBehaviour.
Import Handler Next PredictRoute Spec Behaviour.

(** X1.  A JSON body other than [null] from which one of the four required
    fields is absent is answered 400 "Missing required fields", and the
    backend is not called. *)
Theorem POST_rejects_a_missing_field (w : World) (request : NextRequest)
    (body : Js.Value) (k : string) :
  json request = Some body ->
  Js.is_nullish body = false ->
  In k required_fields ->
  absent body k ->
  run (POST request) w = (inr missing_fields_response, []).
Proof.
  intros Hjson Hnn Hk Habs.
  destruct (destructure_not_nullish body Hnn)
    as (a & b & c & d & Ha & Hb & Hc & Hd & Hdes).
  unfold absent in Habs. simpl in Hk.
  assert (Hguard : negb (Js.truthy a) || Js.is_undefined b
                   || Js.is_undefined c || Js.is_undefined d = true).
  { destruct Hk as [<- | [<- | [<- | [<- | []]]]].
    - assert (a = Js.Undefined) as -> by congruence. reflexivity.
    - assert (b = Js.Undefined) as -> by congruence.
      cbn. rewrite orb_true_r. reflexivity.
    - assert (c = Js.Undefined) as -> by congruence.
      cbn. rewrite !orb_true_r. reflexivity.
    - assert (d = Js.Undefined) as -> by congruence.
      cbn. rewrite !orb_true_r. reflexivity. }
  unfold run, POST, try_catch, bind, request_json, lift.
  rewrite Hjson. unfold ret at 1. rewrite Hdes, Hguard. reflexivity.
Qed.

Lemma POST_rejects_a_missing_field_witness :
  let body := Js.Object
                {[ "building_type" := Js.String "Commercial";
                   "square_footage" := Js.Number (Num.ofZ 900);
                   "appliances_used" := Js.Number (Num.ofZ 12) ]} in
  let w := {| NEXT_PUBLIC_BACKEND_URL := None;
              backend := fun _ => Replied 200 (Some Js.Null) |} in
  run (POST {| searchParams := []; json := Some body |}) w
    = (inr missing_fields_response, []).
Proof.
  intros body w.
  apply (POST_rejects_a_missing_field w _ body "number_of_occupants");
    [ reflexivity | reflexivity | | reflexivity ].
  right. right. left. reflexivity.
Defined.

(** X2.  A [building_type] that is present but falsy (the empty string,
    [0], [false], [null]) is rejected like a missing one: 400, and no
    call to the backend, whatever the other fields are. *)
Theorem POST_rejects_a_falsy_building_type (w : World)
    (request : NextRequest) (o : gmap string Js.Value) (bt : Js.Value) :
  json request = Some (Js.Object o) ->
  o !! "building_type" = Some bt ->
  Js.truthy bt = false ->
  run (POST request) w = (inr missing_fields_response, []).
Proof.
  intros Hjson Hbt Hfalsy.
  destruct (destructure_not_nullish (Js.Object o) eq_refl)
    as (a & b & c & d & Ha & _ & _ & _ & Hdes).
  cbn [Js.get] in Ha. rewrite Hbt in Ha. injection Ha as <-.
  unfold run, POST, try_catch, bind, request_json, lift.
  rewrite Hjson. unfold ret at 1. rewrite Hdes, Hfalsy. reflexivity.
Qed.

Lemma POST_rejects_a_falsy_building_type_witness :
  let o : gmap string Js.Value :=
    {[ "building_type" := Js.String "";
       "square_footage" := Js.Number (Num.ofZ 250);
       "number_of_occupants" := Js.Number (Num.ofZ 4);
       "appliances_used" := Js.Number (Num.ofZ 20) ]} in
  let w := {| NEXT_PUBLIC_BACKEND_URL := None;
              backend := fun _ => Rejected |} in
  run (POST {| searchParams := []; json := Some (Js.Object o) |}) w
    = (inr missing_fields_response, []).
Proof.
  intros o w.
  apply (POST_rejects_a_falsy_building_type w _ o (Js.String ""));
    reflexivity.
Defined.

Lemma POST_body_not_json_run (w : World) (request : NextRequest) :
  json request = None ->
  run (POST request) w = (inr prediction_failure_response, []).
Proof.
  intros Hjson. unfold run, POST, try_catch, bind, request_json.
  rewrite Hjson. reflexivity.
Qed.

(** X3.  A request whose body is not JSON is answered 500 "Failed to get
    prediction from backend" by the [catch] block, and the backend is not
    called. *)
Theorem POST_body_not_json_is_answered_500 (w : World)
    (request : NextRequest) :
  json request = None ->
  run (POST request) w = (inr prediction_failure_response, []).
Proof.
  intros Hjson. unfold run, POST, try_catch, bind, request_json.
  rewrite Hjson. reflexivity.
Qed.

Lemma POST_body_not_json_is_answered_500_witness :
  run (POST {| searchParams := [("page", "2")]; json := None |})
      {| NEXT_PUBLIC_BACKEND_URL := Some "http://backend:9000";
         backend := fun _ => Replied 200 (Some Js.Null) |}
    = (inr prediction_failure_response, []).
Proof. apply POST_body_not_json_is_answered_500. reflexivity. Defined.

Lemma normalize_nullish (data : Js.Value) :
  Js.is_nullish data = true -> exists e, normalize data = inl e.
Proof. destruct data; try discriminate; intros _; eexists; reflexivity. Qed.

(** What [POST] does once a body has passed the validation, for each
    answer of the backend. *)
Lemma POST_after_validation (w : World) (request : NextRequest)
    (body a b c d : Js.Value) :
  json request = Some body ->
  destructure body = inr (a, b, c, d) ->
  Js.truthy a = true -> Js.is_undefined b = false ->
  Js.is_undefined c = false -> Js.is_undefined d = false ->
  run (POST request) w
    = (inr match backend w (forwarded_call w a b c d) with
           | Replied st (Some data) =>
               if ok {| resp_status := st; resp_json := Some data |}
                  && negb (Js.is_nullish data)
               then json_response
                      (Js.Object (normalized_fields (properties_of data)))
               else prediction_failure_response
           | _ => prediction_failure_response
           end,
       [forwarded_call w a b c d]).
Proof.
  intros Hjson Hdes Ha Hb Hc Hd.
  unfold run, POST, try_catch, bind, request_json, lift.
  rewrite Hjson. unfold ret at 1. rewrite Hdes, Ha, Hb, Hc, Hd.
  cbv beta iota. unfold env_backend_url, fetch.
  change (negb true || false || false || false) with false.
  cbv beta iota.
  fold (forwarded_fields a b c d). fold (forwarded_call w a b c d).
  destruct (backend w (forwarded_call w a b c d)) as [| st payload];
    [reflexivity |].
  cbv beta iota. unfold ok. cbv [resp_status].
  destruct ((200 <=? st)%Z && (st <=? 299)%Z).
  - cbv [negb]. unfold response_json. cbv [resp_json].
    destruct payload as [data |]; [| reflexivity].
    unfold ret at 1. cbn [andb].
    destruct (Js.is_nullish data) eqn:E.
    + destruct (normalize_nullish data E) as [e ->]. reflexivity.
    + rewrite (normalize_value data E). reflexivity.
  - destruct payload; reflexivity.
Qed.

(** X4.  After a body has passed the validation, the proxy answers 500
    "Failed to get prediction from backend" whenever the backend cannot be
    reached, answers with a status outside 200..299, answers with a body
    that is not JSON, or answers with the JSON body [null]; in each case
    the backend has been called once. *)
Theorem POST_backend_failure_is_answered_500 (w : World)
    (request : NextRequest) (body a b c d : Js.Value) :
  json request = Some body ->
  destructure body = inr (a, b, c, d) ->
  Js.truthy a = true -> Js.is_undefined b = false ->
  Js.is_undefined c = false -> Js.is_undefined d = false ->
  (backend w (forwarded_call w a b c d) = Rejected \/
   (exists st payload,
      backend w (forwarded_call w a b c d) = Replied st payload /\
      (~ is_2xx st \/ payload = None \/ payload = Some Js.Null))) ->
  run (POST request) w
    = (inr prediction_failure_response, [forwarded_call w a b c d]).
Proof.
  intros Hjson Hdes Ha Hb Hc Hd Hfail.
  rewrite (POST_after_validation w request body a b c d) by assumption.
  destruct Hfail as [-> | (st & payload & -> & Hwhy)]; [reflexivity |].
  destruct payload as [data |]; [| reflexivity].
  destruct Hwhy as [Hst | [Hp | Hp]]; [| discriminate |].
  - unfold ok. cbv [resp_status].
    destruct ((200 <=? st)%Z && (st <=? 299)%Z) eqn:E; [| reflexivity].
    exfalso. apply Hst. apply andb_true_iff in E.
    destruct E as [E1%Z.leb_le E2%Z.leb_le]. split; assumption.
  - injection Hp as ->. cbn. rewrite andb_false_r. reflexivity.
Qed.

Lemma POST_backend_failure_is_answered_500_witness :
  let body := Home.formData_value (Home.formData Home.initial) in
  let w := {| NEXT_PUBLIC_BACKEND_URL := None;
              backend := fun _ => Replied 503 None |} in
  run (POST {| searchParams := []; json := Some body |}) w
    = (inr prediction_failure_response,
       [forwarded_call w (Js.String "Residential") (Js.Number (Num.ofZ 250))
          (Js.Number (Num.ofZ 4)) (Js.Number (Num.ofZ 20))]).
Proof.
  intros body w.
  apply (POST_backend_failure_is_answered_500 w _ body);
    try reflexivity.
  right. exists 503%Z, None. split; [reflexivity |].
  right. left. reflexivity.
Defined.

(** X5.  [POST] always answers: it never lets an exception escape, its
    answer is a 200 response, the 400 response or the 500 response, and
    it calls the backend at most once, exactly when the request has a
    JSON body that passes the validation. *)
Theorem POST_always_answers (w : World) (request : NextRequest) :
  exists r calls,
    run (POST request) w = (inr r, calls) /\
    (status r = 200%Z \/ r = missing_fields_response
     \/ r = prediction_failure_response) /\
    (length calls <= 1)%nat /\
    (calls <> [] <->
     exists body, json request = Some body /\ passes_validation body).
Proof.
  destruct (json request) as [body |] eqn:Hjson.
  2:{ exists prediction_failure_response, [].
      split; [apply POST_body_not_json_run; exact Hjson |].
      split; [auto |]. split; [cbn; lia |].
      split; [intros H; contradiction | intros (body & H & _); discriminate]. }
  destruct (Js.is_nullish body) eqn:Hnn.
  { exists prediction_failure_response, []. split.
    - unfold run, POST, try_catch, bind, request_json, lift.
      rewrite Hjson. unfold ret at 1.
      destruct body; try discriminate; reflexivity.
    - split; [auto |]. split; [cbn; lia |].
      split; [intros H; contradiction |].
      intros (body' & H & (a & b & c & d & Hdes & _)).
      injection H as <-. destruct body; discriminate. }
  destruct (destructure_not_nullish body Hnn)
    as (a & b & c & d & _ & _ & _ & _ & Hdes).
  destruct (Js.truthy a) eqn:Ha; [destruct (Js.is_undefined b) eqn:Hb;
    [| destruct (Js.is_undefined c) eqn:Hc;
       [| destruct (Js.is_undefined d) eqn:Hd]] |].
  5:{ (* building_type falsy *)
      exists missing_fields_response, []. split.
      - unfold run, POST, try_catch, bind, request_json, lift.
        rewrite Hjson. unfold ret at 1. rewrite Hdes, Ha. reflexivity.
      - split; [auto |]. split; [cbn; lia |].
        split; [intros H; contradiction |].
        intros (body' & H & (a' & b' & c' & d' & Hdes' & Ha' & _)).
        injection H as <-. congruence. }
  4:{ (* all four present *)
      eexists. exists [forwarded_call w a b c d]. split.
      - apply (POST_after_validation w request body a b c d); assumption.
      - split.
        + destruct (backend w _) as [| st [data |]]; auto.
          destruct (_ && _); auto.
        + split; [cbn; lia |]. split; [| discriminate].
          intros _. exists body. split; [reflexivity |].
          exists a, b, c, d. repeat split; assumption. }
  all: exists missing_fields_response, []; split;
    [ unfold run, POST, try_catch, bind, request_json, lift;
      rewrite Hjson; unfold ret at 1; rewrite Hdes, Ha;
      rewrite ?Hb, ?Hc, ?Hd; cbn; rewrite ?orb_true_r; reflexivity
    | split; [auto |]; split; [cbn; lia |];
      split; [intros H; contradiction |];
      intros (body' & H & (a' & b' & c' & d' & Hdes' & _ & Hb' & Hc' & Hd'));
      injection H as <-; congruence ].
Qed.

Lemma normalized_factors_fixed (top f : gmap string Js.Value) :
  top !! "factors" = Some (Js.Object f) ->
  (forall k, is_Some (f !! k) <-> In k required_fields) ->
  (forall k, In k required_fields -> populated (read f k)) ->
  normalized_factors top = f.
Proof.
  intros Hf Hkeys Hpop. apply map_eq. intros i.
  assert (Hfac : forall k, factor top k = read f k).
  { intros k. unfold factor, read at 1. rewrite Hf. reflexivity. }
  destruct (f !! i) as [v |] eqn:E.
  - assert (Hi : In i required_fields) by (apply Hkeys; eauto).
    rewrite (normalized_factors_lookup top i Hi), Hfac.
    rewrite (or_zero_given _ (Hpop i Hi)).
    unfold read. rewrite E. reflexivity.
  - apply eq_None_not_Some. intros H.
    apply normalized_factors_keys, Hkeys in H.
    rewrite E in H. destruct H as [x H]. discriminate H.
Qed.

(** Normalising is idempotent on responses in normal form. *)
Lemma normalized_fields_fixed (top : gmap string Js.Value) :
  in_normal_form top -> normalized_fields top = top.
Proof.
  intros (Hkeys & He & Hu & f & Hf & Hfkeys & Hfpop).
  apply map_eq. intros i.
  destruct (top !! i) as [v |] eqn:E.
  - assert (Hi : In i response_fields) by (apply Hkeys; eauto).
    simpl in Hi. destruct Hi as [<- | [<- | [<- | []]]].
    + change (normalized_fields top !! "energy_consumption")
        with (Some (or_zero (read top "energy_consumption"))).
      rewrite (or_zero_given _ He). unfold read. rewrite E. reflexivity.
    + change (normalized_fields top !! "unit")
        with (Some (Js.nullish_or (read top "unit") (Js.String "kWh"))).
      unfold Js.nullish_or. unfold populated in Hu. rewrite Hu.
      unfold read. rewrite E. reflexivity.
    + change (normalized_fields top !! "factors")
        with (Some (Js.Object (normalized_factors top))).
      rewrite (normalized_factors_fixed top f Hf Hfkeys Hfpop).
      congruence.
  - apply eq_None_not_Some. intros H.
    apply normalized_fields_keys, Hkeys in H.
    rewrite E in H. destruct H as [x H]. discriminate H.
Qed.

(** X6.  A response of the backend that is already in normal form
    (exactly the fields [energy_consumption], [unit] and [factors], none
    of them [null], with [factors] an object of exactly the four factor
    fields, none of them [null]) and that JSON can express as it is goes
    through the proxy unchanged: the proxy answers 200 with that very
    body, after one call to the backend. *)
Theorem POST_returns_a_normal_form_unchanged (w : World)
    (request : NextRequest) (body a b c d : Js.Value) (st : Z)
    (top : gmap string Js.Value) :
  json request = Some body ->
  destructure body = inr (a, b, c, d) ->
  Js.truthy a = true -> Js.is_undefined b = false ->
  Js.is_undefined c = false -> Js.is_undefined d = false ->
  backend w (forwarded_call w a b c d) = Replied st (Some (Js.Object top)) ->
  is_2xx st ->
  in_normal_form top ->
  serialisable (Js.Object top) ->
  run (POST request) w
    = (inr {| status := 200; data := Js.Object top |},
       [forwarded_call w a b c d]).
Proof.
  intros Hjson Hdes Ha Hb Hc Hd Hreply [Hlo Hhi] Hnf Hs.
  rewrite (POST_after_validation w request body a b c d) by assumption.
  rewrite Hreply. unfold ok. cbv [resp_status].
  apply Z.leb_le in Hlo, Hhi. rewrite Hlo, Hhi.
  cbn [andb negb Js.is_nullish properties_of].
  rewrite (normalized_fields_fixed top Hnf).
  unfold json_response. rewrite Hs. reflexivity.
Qed.

Lemma POST_returns_a_normal_form_unchanged_witness :
  let body := Home.formData_value (Home.formData Home.initial) in
  let top := normalized_fields
               {[ "energy_consumption" := Js.Number (Num.ofZ 400);
                  "unit" := Js.String "kWh" ]} in
  let w := {| NEXT_PUBLIC_BACKEND_URL := None;
              backend := fun _ => Replied 200 (Some (Js.Object top)) |} in
  run (POST {| searchParams := []; json := Some body |}) w
    = (inr {| status := 200; data := Js.Object top |},
       [forwarded_call w (Js.String "Residential") (Js.Number (Num.ofZ 250))
          (Js.Number (Num.ofZ 4)) (Js.Number (Num.ofZ 20))]).
Proof.
  intros body top w.
  apply (POST_returns_a_normal_form_unchanged w _ body
           (Js.String "Residential") (Js.Number (Num.ofZ 250))
           (Js.Number (Num.ofZ 4)) (Js.Number (Num.ofZ 20)) 200 top);
    try reflexivity.
  - split; discriminate.
  - split; [intros k; apply normalized_fields_keys |].
    split; [reflexivity |]. split; [reflexivity |].
    eexists. split; [reflexivity |].
    split; [intros k; apply normalized_factors_keys |].
    intros k Hk. unfold read.
    rewrite (normalized_factors_lookup _ k Hk). apply or_zero_populated.
Defined.

End PredictRouteBehaviour.

(** ** The dataset proxy: pass-through and failures *)

Section DatasetRouteBehaviour.
Import Handler Next DatasetRoute Spec Behaviour.

(** What [GET] does for each answer of the backend. *)
Lemma GET_outcome (w : World) (request : NextRequest) :
  run (GET request) w
    = (inr match backend w (dataset_call w request) with
           | Replied st (Some data) =>
               if ok {| resp_status := st; resp_json := Some data |}
               then if Js.is_nullish data
                    then dataset_failure_response
                    else json_response data
               else dataset_failure_response
           | _ => dataset_failure_response
           end,
       [dataset_call w request]).
Proof.
  unfold run, GET, try_catch, bind, env_backend_url, fetch. cbv beta iota.
  fold (dataset_endpoint w
          (string_or (searchParams_get (searchParams request) "page") "1")
          (string_or (searchParams_get (searchParams request) "limit") "50")).
  fold (dataset_call w request).
  destruct (backend w (dataset_call w request)) as [| st payload];
    [reflexivity |].
  cbv beta iota. unfold ok. cbv [resp_status].
  destruct ((200 <=? st)%Z && (st <=? 299)%Z).
  - cbv [negb]. unfold response_json. cbv [resp_json].
    destruct payload as [data |]; [| reflexivity].
    destruct data; reflexivity.
  - destruct payload; reflexivity.
Qed.

(** X7.  When the backend answers the listing with a 2xx status and a
    JSON body other than [null], the dataset proxy answers 200 with the
    JSON document of that body: the body itself whenever JSON can express
    it (a number out of the range of JSON is written [null]).  When the
    body is the JSON value [null], the proxy answers 500 "Failed to fetch
    dataset from backend": reading [data.data] throws. *)
Theorem GET_passes_the_backend_body_through (w : World)
    (request : NextRequest) (st : Z) (body : Js.Value) :
  backend w (dataset_call w request) = Replied st (Some body) ->
  is_2xx st ->
  (Js.is_nullish body = false ->
   run (GET request) w
     = (inr {| status := 200; data := Js.to_json body |},
        [dataset_call w request]) /\
   (serialisable body ->
    run (GET request) w
      = (inr {| status := 200; data := body |},
         [dataset_call w request]))) /\
  (Js.is_nullish body = true ->
   run (GET request) w
     = (inr dataset_failure_response, [dataset_call w request])).
Proof.
  intros Hreply [Hlo Hhi]. rewrite GET_outcome, Hreply.
  unfold ok. cbv [resp_status].
  apply Z.leb_le in Hlo, Hhi. rewrite Hlo, Hhi. cbv [andb].
  split.
  - intros ->. split; [reflexivity |].
    intros Hs. unfold json_response. rewrite Hs. reflexivity.
  - intros ->. reflexivity.
Qed.

Lemma GET_passes_the_backend_body_through_witness :
  let page := Js.Object {[ "data" := Js.Array []; "total" := Js.Number (Num.ofZ 0);
                           "pages" := Js.Number (Num.ofZ 0) ]} in
  let w := {| NEXT_PUBLIC_BACKEND_URL := Some "http://backend:9000";
              backend := fun _ => Replied 200 (Some page) |} in
  let request := {| searchParams := [("limit", "200")]; json := None |} in
  run (GET request) w
    = (inr {| status := 200; data := page |}, [dataset_call w request]).
Proof.
  intros page w request.
  assert (Hst : is_2xx 200) by (split; discriminate).
  apply (proj2 (proj1 (GET_passes_the_backend_body_through
                         w request 200 page eq_refl Hst) eq_refl)).
  vm_compute. reflexivity.
Defined.

(** X8.  The dataset proxy answers 500 "Failed to fetch dataset from
    backend" whenever the backend cannot be reached, answers with a
    status outside 200..299, or answers with a body that is not JSON. *)
Theorem GET_backend_failure_is_answered_500 (w : World)
    (request : NextRequest) :
  (backend w (dataset_call w request) = Rejected \/
   (exists st payload,
      backend w (dataset_call w request) = Replied st payload /\
      (~ is_2xx st \/ payload = None))) ->
  run (GET request) w
    = (inr dataset_failure_response, [dataset_call w request]).
Proof.
  intros Hfail. rewrite GET_outcome.
  destruct Hfail as [-> | (st & payload & -> & Hwhy)]; [reflexivity |].
  destruct payload as [body |]; [| reflexivity].
  destruct Hwhy as [Hst | Hp]; [| discriminate].
  unfold ok. cbv [resp_status].
  destruct ((200 <=? st)%Z && (st <=? 299)%Z) eqn:E; [| reflexivity].
  exfalso. apply Hst. apply andb_true_iff in E.
  destruct E as [E1%Z.leb_le E2%Z.leb_le]. split; assumption.
Qed.

Lemma GET_backend_failure_is_answered_500_witness :
  let w := {| NEXT_PUBLIC_BACKEND_URL := None;
              backend := fun _ => Replied 404 (Some (Js.String "not found")) |} in
  let request := {| searchParams := []; json := None |} in
  run (GET request) w
    = (inr dataset_failure_response, [dataset_call w request]).
Proof.
  intros w request.
  apply (GET_backend_failure_is_answered_500 w request).
  right. exists 404%Z, (Some (Js.String "not found")).
  split; [reflexivity |]. left. intros [_ H]. apply H. reflexivity.
Defined.

Lemma searchParams_get_other (ps1 ps2 : list (string * string))
    (k v name : string) :
  k <> name ->
  searchParams_get (ps1 ++ (k, v) :: ps2) name
    = searchParams_get (ps1 ++ ps2) name.
Proof.
  intros Hk. induction ps1 as [| [k' v'] ps1 IH]; cbn.
  - destruct (String.eqb_spec k name); [contradiction | reflexivity].
  - destruct (String.eqb k' name); [reflexivity | exact IH].
Qed.

Lemma searchParams_get_first (ps1 ps2 : list (string * string))
    (name v v' : string) :
  searchParams_get ps1 name = Some v ->
  searchParams_get (ps1 ++ (name, v') :: ps2) name = Some v.
Proof.
  induction ps1 as [| [k' w'] ps1 IH]; cbn; [discriminate |].
  destruct (String.eqb k' name); [auto | exact IH].
Qed.

Lemma searchParams_get_app_first (ps1 ps2 : list (string * string))
    (name v : string) :
  searchParams_get ps1 name = Some v ->
  searchParams_get (ps1 ++ ps2) name = Some v.
Proof.
  induction ps1 as [| [k' w'] ps1 IH]; cbn; [discriminate |].
  destruct (String.eqb k' name); [auto | exact IH].
Qed.

(** X9.  The dataset proxy reads nothing of a request but its [page] and
    [limit] parameters: a parameter of another name, wherever it stands
    in the query, and the body of the request change neither the call
    made to the backend nor the answer. *)
Theorem GET_ignores_other_parameters (w : World)
    (ps1 ps2 : list (string * string)) (k v : string)
    (body body' : option Js.Value) :
  k <> "page"%string -> k <> "limit"%string ->
  run (GET {| searchParams := ps1 ++ (k, v) :: ps2; json := body |}) w
    = run (GET {| searchParams := ps1 ++ ps2; json := body' |}) w.
Proof.
  intros Hp Hl. rewrite !GET_outcome. unfold dataset_call.
  cbn [searchParams].
  rewrite !(searchParams_get_other ps1 ps2 k v) by assumption.
  reflexivity.
Qed.

Lemma GET_ignores_other_parameters_witness :
  let w := {| NEXT_PUBLIC_BACKEND_URL := None;
              backend := fun _ => Replied 200 (Some Js.Null) |} in
  run (GET {| searchParams := [("page", "3"); ("sort", "asc"); ("limit", "50")];
              json := Some Js.Null |}) w
    = run (GET {| searchParams := [("page", "3"); ("limit", "50")];
                  json := None |}) w.
Proof.
  intros w.
  apply (GET_ignores_other_parameters w [("page", "3")] [("limit", "50")]
           "sort" "asc"); discriminate.
Defined.

(** X10.  When a parameter is given more than once, the first value
    counts: a later [page] (or [limit]) does not change the call made to
    the backend. *)
Theorem GET_uses_the_first_value (w : World)
    (ps1 ps2 : list (string * string)) (name v v' : string)
    (body : option Js.Value) :
  searchParams_get ps1 name = Some v ->
  run (GET {| searchParams := ps1 ++ (name, v') :: ps2; json := body |}) w
    = run (GET {| searchParams := ps1 ++ ps2; json := body |}) w.
Proof.
  intros Hfirst.
  assert (Hsame : forall q,
            searchParams_get (ps1 ++ (name, v') :: ps2) q
              = searchParams_get (ps1 ++ ps2) q).
  { intros q. destruct (String.eqb_spec name q) as [<- | Hq].
    - rewrite (searchParams_get_first ps1 ps2 name v v' Hfirst).
      rewrite (searchParams_get_app_first ps1 ps2 name v Hfirst).
      reflexivity.
    - apply searchParams_get_other. exact Hq. }
  rewrite !GET_outcome. unfold dataset_call. cbn [searchParams].
  rewrite !Hsame. reflexivity.
Qed.

Lemma GET_uses_the_first_value_witness :
  let w := {| NEXT_PUBLIC_BACKEND_URL := None;
              backend := fun _ => Rejected |} in
  run (GET {| searchParams := [("page", "3"); ("page", "7")];
              json := None |}) w
    = run (GET {| searchParams := [("page", "3")]; json := None |}) w.
Proof.
  intros w.
  apply (GET_uses_the_first_value w [("page", "3")] [] "page" "3" "7").
  reflexivity.
Defined.

End DatasetRouteBehaviour.

(** ** The predictor view: submissions and what is shown after them *)

Section HomeBehaviour.
Import Home Spec Behaviour.

(** X11.  Whatever was on display before, a failed submission leaves the
    view with no result: the error message is shown (when it is not
    empty), both result blocks are gone and the placeholder is back; a
    successful one shows the new result in both blocks, with no error box
    and no placeholder.  While the request is in flight the button reads
    "Predicting..." and neither a result nor the placeholder is shown. *)
Theorem submission_replaces_what_is_shown (s : State) :
  (forall message,
     let v := render (handleSubmit s (Failed message)) in
     form_result v = None /\ results_card v = None /\
     placeholder v = true /\
     (message <> ""%string -> error_box v = Some message) /\
     button_label v = "Predict Energy Consumption"%string) /\
  (forall data,
     let v := render (handleSubmit s (Resolved data)) in
     form_result v = Some (amount data) /\
     option_map fst (results_card v) = Some (amount data) /\
     placeholder v = false /\ error_box v = None /\
     button_label v = "Predict Energy Consumption"%string) /\
  (let v := render (handleSubmit_begin s) in
   form_result v = None /\ results_card v = None /\
   placeholder v = false /\ error_box v = None /\
   button_label v = "Predicting..."%string).
Proof.
  split; [| split].
  - intros message v. subst v. cbn. repeat split.
    intros Hm. destruct (String.eqb_spec message ""); [contradiction |].
    reflexivity.
  - intros data v. subst v. cbn. repeat split.
  - cbn. repeat split.
Qed.

(** X12.  The factor chart has no entry when there is no result or the
    result has no factors; otherwise it has the four entries "Building
    Type", "Square Footage", "Occupants", "Appliances", in that order
    whatever their values, and no entry is [NaN] or [-0]: a missing or
    falsy factor is plotted as [0]. *)
Theorem factor_data_is_four_named_entries (s : State) :
  (getFactorData s = [] <->
   result s = None \/ exists r, result s = Some r /\ factors r = None) /\
  (forall r f, result s = Some r -> factors r = Some f ->
     map fst (getFactorData s)
       = ["Building Type"; "Square Footage"; "Occupants";
          "Appliances"]%string /\
     map snd (getFactorData s)
       = [factor_or_zero (f_building_type f);
          factor_or_zero (f_square_footage f);
          factor_or_zero (f_number_of_occupants f);
          factor_or_zero (f_appliances_used f)]) /\
  (forall name v, In (name, v) (getFactorData s) ->
     Num.truthy v = true \/ v = Num.ofZ 0).
Proof.
  assert (Hz : forall x, Num.truthy (factor_or_zero x) = true
                         \/ factor_or_zero x = Num.ofZ 0).
  { intros [x |]; [| right; reflexivity].
    unfold factor_or_zero, Num.or_else.
    destruct (Num.truthy x) eqn:E; [left; exact E | right; reflexivity]. }
  unfold getFactorData. split; [| split].
  - destruct (result s) as [r |]; [| split; auto].
    destruct (factors r) as [f |] eqn:Ef.
    + split; [discriminate |].
      intros [H | (r' & H & Hf)]; [discriminate |].
      injection H as <-. congruence.
    + split; [| reflexivity]. intros _. right. exists r. split; auto.
  - intros r f -> ->. split; reflexivity.
  - intros name v. destruct (result s) as [r |]; [| intros []].
    destruct (factors r) as [f |]; [| intros []].
    cbn. intros [H | [H | [H | [H | []]]]]; injection H as _ <-; apply Hz.
Qed.

(** X13.  The unit printed beside the amount is never empty. *)
Theorem unit_label_is_never_empty (r : PredictionResult) :
  unit_label r <> ""%string.
Proof.
  unfold unit_label, Next.string_or.
  destruct (unit r) as [u |]; [| discriminate].
  destruct (String.eqb_spec u ""); [discriminate | assumption].
Qed.

(** X14.  What the form posts always passes the proxy's validation, as
    long as a building type is selected: the proxy forwards the form's
    four values to the backend in one call, and its answer is not the 400
    response. *)
Theorem form_submission_passes_the_validation (w : Handler.World)
    (f : FormData) (ps : list (string * string)) :
  building_type f <> ""%string ->
  passes_validation (formData_value f) /\
  exists r,
    Handler.run
      (PredictRoute.POST {| Next.searchParams := ps;
                            Next.json := Some (formData_value f) |}) w
      = (inr r,
         [forwarded_call w (Js.String (building_type f))
            (Js.Number (square_footage f))
            (Js.Number (number_of_occupants f))
            (Js.Number (appliances_used f))]) /\
    r <> missing_fields_response.
Proof.
  intros Hbt.
  assert (Htruthy : Js.truthy (Js.String (building_type f)) = true).
  { cbn. destruct (String.eqb_spec (building_type f) "");
      [contradiction | reflexivity]. }
  assert (Hdes : PredictRoute.destructure (formData_value f)
                 = inr (Js.String (building_type f),
                        Js.Number (square_footage f),
                        Js.Number (number_of_occupants f),
                        Js.Number (appliances_used f))) by reflexivity.
  split.
  - do 4 eexists. split; [exact Hdes |]. repeat split. exact Htruthy.
  - eexists. split.
    + apply (POST_after_validation w _ (formData_value f));
        [reflexivity | exact Hdes | exact Htruthy | reflexivity ..].
    + destruct (Handler.backend w _) as [| st [data |]];
        try discriminate.
      destruct (_ && _); discriminate.
Qed.

Lemma form_submission_passes_the_validation_witness :
  let w := {| Handler.NEXT_PUBLIC_BACKEND_URL := None;
              Handler.backend := fun _ => Handler.Rejected |} in
  let f := formData initial in
  passes_validation (formData_value f) /\
  exists r,
    Handler.run
      (PredictRoute.POST {| Next.searchParams := [];
                            Next.json := Some (formData_value f) |}) w
      = (inr r,
         [forwarded_call w (Js.String (building_type f))
            (Js.Number (square_footage f))
            (Js.Number (number_of_occupants f))
            (Js.Number (appliances_used f))]) /\
    r <> missing_fields_response.
Proof.
  intros w f.
  apply (form_submission_passes_the_validation w f []). discriminate.
Defined.

End HomeBehaviour.

(** ** The dataset view: pagination, filtering, fetching *)

Section DatasetPageBehaviour.
Import DatasetPage Spec Behaviour.
#[local] Open Scope Z_scope.

Lemma setPage_same (s : State) : apply_update s (setPage (page s)) = s.
Proof. destruct s; reflexivity. Qed.

(** X15.  "Previous" never takes the view below page 1: the new page is
    [max(1, page - 1)]; on page 1 nothing changes and no request is sent,
    on any other page one request for the new page is sent. *)
Theorem previous_stops_at_page_1 (s : State) :
  1 <= page (fst (dispatch s Previous)) /\
  (page s = 1 -> dispatch s Previous = (s, [])) /\
  (page s <> 1 ->
   snd (dispatch s Previous)
     = [dataset_request (Z.max 1 (page s - 1)) (limit s)]).
Proof.
  unfold dispatch. cbn [handler fold_left].
  split; [| split].
  - destruct (deps_changed _ _); cbn; lia.
  - intros H. rewrite H. change (Z.max 1 (1 - 1)) with 1. rewrite <- H.
    rewrite setPage_same. unfold deps_changed.
    rewrite !Z.eqb_refl. reflexivity.
  - intros H. unfold deps_changed. cbn [apply_update page limit].
    destruct (Z.eqb_spec (page s) (Z.max 1 (page s - 1))) as [E | E];
      [lia |]. reflexivity.
Qed.





(** X18.  While the page number is within [1 .. totalPages], every user
    action keeps it there. *)
Theorem events_keep_the_page_in_range (s : State) (ev : Event) :
  1 <= page s <= totalPages s ->
  1 <= page (fst (dispatch s ev)) <= totalPages (fst (dispatch s ev)).
Proof.
  intros H. unfold dispatch.
  destruct ev; cbn [handler fold_left];
    destruct (deps_changed _ _); cbn; lia.
Qed.

Lemma events_keep_the_page_in_range_witness :
  let s := apply_update (fetchDataset_settle initial (Resolved [] 3))
                        (setPage 3) in
  1 <= page (fst (dispatch s (LimitChange 500)))
    <= totalPages (fst (dispatch s (LimitChange 500))).
Proof.
  intros s. apply (events_keep_the_page_in_range s (LimitChange 500)).
  cbn. lia.
Defined.

(** X19.  Choosing a metric or a building-type filter sends no request
    and touches neither the rows nor the page, the limit or the loading
    flag: filtering is done on the rows already loaded. *)
Theorem filter_and_metric_do_not_refetch (s : State) (ev : Event) :
  (exists m, ev = MetricChange m) \/ (exists t, ev = FilterChange t) ->
  snd (dispatch s ev) = [] /\
  dataset (fst (dispatch s ev)) = dataset s /\
  page (fst (dispatch s ev)) = page s /\
  limit (fst (dispatch s ev)) = limit s /\
  totalPages (fst (dispatch s ev)) = totalPages s /\
  loading (fst (dispatch s ev)) = loading s /\
  error (fst (dispatch s ev)) = error s.
Proof.
  intros [[m ->] | [t ->]]; unfold dispatch, deps_changed;
    cbn [handler fold_left apply_update page limit];
    rewrite !Z.eqb_refl; cbn; repeat split.
Qed.

Lemma filter_and_metric_do_not_refetch_witness :
  let s := fetchDataset_settle initial (Resolved [] 3) in
  let ev := FilterChange "Industrial" in
  snd (dispatch s ev) = [] /\
  dataset (fst (dispatch s ev)) = dataset s /\
  page (fst (dispatch s ev)) = page s /\
  limit (fst (dispatch s ev)) = limit s /\
  totalPages (fst (dispatch s ev)) = totalPages s /\
  loading (fst (dispatch s ev)) = loading s /\
  error (fst (dispatch s ev)) = error s.
Proof.
  intros s ev. apply (filter_and_metric_do_not_refetch s ev).
  right. exists "Industrial"%string. reflexivity.
Defined.


(** X21.  The rows on display are the loaded rows whose building type is
    the selected filter, in the order of the page, and all of them when
    the filter is "all"; filtering never adds a row. *)
Theorem filtered_rows_are_the_matching_rows (s : State) :
  (forall row, In row (getFilteredData s) <->
               In row (dataset s) /\
               (filterType s = "all"%string
                \/ building_type row = filterType s)) /\
  sublist (getFilteredData s) (dataset s) /\
  (length (getFilteredData s) <= length (dataset s))%nat /\
  (filterType s = "all"%string -> getFilteredData s = dataset s).
Proof.
  unfold getFilteredData.
  destruct (String.eqb_spec (filterType s) "all") as [E | E].
  - repeat split; auto; try tauto.
  - assert (Hsub : sublist
              (List.filter
                 (fun row => String.eqb (building_type row) (filterType s))
                 (dataset s)) (dataset s)).
    { induction (dataset s) as [| row rest IH]; [constructor |].
      cbn. destruct (String.eqb _ _); constructor; exact IH. }
    split; [| split; [exact Hsub | split]].
    + intros row. rewrite filter_In. split.
      * intros [Hin Hm]. split; [exact Hin |]. right.
        apply String.eqb_eq. exact Hm.
      * intros [Hin [Hall | Hm]]; [contradiction |].
        split; [exact Hin | apply String.eqb_eq; exact Hm].
    + apply sublist_length. exact Hsub.
    + intros H. contradiction.
Qed.

(** X22.  A failed fetch keeps what was loaded before: the rows, the
    number of pages, the page, the limit, the filter and the metric are
    those of the state the request started from, so the chart is the
    chart of that state; the error message is recorded and the view is
    no longer loading. *)
Theorem a_failed_fetch_keeps_the_rows (s : State) (message : string) :
  let s' := fetchDataset_settle (fetchDataset_begin s) (Failed message) in
  dataset s' = dataset s /\ totalPages s' = totalPages s /\
  page s' = page s /\ limit s' = limit s /\
  LineGraph s' = LineGraph s /\
  error s' = Some message /\ loading s' = false /\
  (dataset s <> [] -> render s' = Graph (LineGraph s)).
Proof.
  cbv zeta. repeat split.
  intros H. unfold render. cbn [fetchDataset_settle fetchDataset_begin
    fold_left apply_update loading dataset].
  destruct (dataset s) eqn:E; [contradiction |]. cbn [length Nat.eqb].
  f_equal. unfold LineGraph, getFilteredData. cbn. rewrite E. reflexivity.
Qed.

(** X23.  A fetch that succeeds replaces the rows and the number of
    pages, whatever the state before: the view then shows "No data
    available" exactly when the page received no row, and otherwise the
    chart of the new rows under the filter and metric already chosen. *)
Theorem a_successful_fetch_replaces_the_rows (s : State)
    (rows : list DataRow) (pages : Z) :
  let s' := fetchDataset_settle (fetchDataset_begin s)
              (Resolved rows pages) in
  dataset s' = rows /\ totalPages s' = pages /\
  page s' = page s /\ limit s' = limit s /\
  filterType s' = filterType s /\ selectedMetric s' = selectedMetric s /\
  error s' = None /\ loading s' = false /\
  (render s' = NoDataMessage <-> rows = []) /\
  (rows <> [] -> render s' = Graph (LineGraph s')).
Proof.
  cbv zeta. repeat split; unfold render;
    cbn [fetchDataset_settle fetchDataset_begin fold_left apply_update
         loading dataset];
    destruct rows; cbn [length Nat.eqb]; try discriminate; auto.
  intros H. contradiction.
Qed.

End DatasetPageBehaviour.

(** ** The order of numbers, and the largest and smallest of a series *)

Section NumOrder.
Import Num Behaviour.
#[local] Open Scope Z_scope.

Lemma lt_precedes (x y : Number) :
  is_NaN x = false -> is_NaN y = false ->
  (lt x y = true <-> precedes x y).
Proof.
  unfold lt, SFltb, precedes.
  destruct x as [sx | sx | | sx mx ex], y as [sy | sy | | sy my ey];
    try discriminate; intros _ _.
  all: try (destruct sx); try (destruct sy); cbn;
    try (split; [discriminate | lia]);
    try (split; [lia | reflexivity]).
  - change (Pos.compare_cont Eq mx my) with (Pos.compare mx my).
    destruct (Z.compare_spec ex ey); cbn;
      [destruct (Pos.compare_spec mx my); cbn | |];
      split; try discriminate; try reflexivity; lia.
  - change (Pos.compare_cont Eq mx my) with (Pos.compare mx my).
    destruct (Z.compare_spec ex ey); cbn;
      [destruct (Pos.compare_spec mx my); cbn | |];
      split; try discriminate; try reflexivity; lia.
Qed.

Lemma gt_precedes (x y : Number) :
  is_NaN x = false -> is_NaN y = false ->
  (gt x y = true <-> precedes y x).
Proof. intros Hx Hy. apply lt_precedes; assumption. Qed.

Lemma gt_false (x y : Number) :
  is_NaN x = false -> is_NaN y = false ->
  (gt x y = false <-> ~ precedes y x).
Proof.
  intros Hx Hy. rewrite <- (gt_precedes x y Hx Hy).
  destruct (gt x y); split; congruence.
Qed.

Lemma max_step_not_NaN (h v : Number) :
  is_NaN h = false -> is_NaN v = false -> is_NaN (max_step h v) = false.
Proof.
  intros Hh Hv. unfold max_step.
  destruct h as [[|] | | |], v as [[|] | | |]; try discriminate;
    try reflexivity; destruct (gt _ _); reflexivity.
Qed.

Lemma min_step_not_NaN (h v : Number) :
  is_NaN h = false -> is_NaN v = false -> is_NaN (min_step h v) = false.
Proof.
  intros Hh Hv. unfold min_step.
  destruct h as [[|] | | |], v as [[|] | | |]; try discriminate;
    try reflexivity; destruct (lt _ _); reflexivity.
Qed.

(** One step of [Math.max] gives a number that neither argument
    exceeds. *)
Lemma max_step_bounds (h v : Number) :
  is_NaN h = false -> is_NaN v = false ->
  ~ precedes (max_step h v) h /\ ~ precedes (max_step h v) v.
Proof.
  intros Hh Hv.
  assert (Hgen : ~ precedes (if gt v h then v else h) h /\
                 ~ precedes (if gt v h then v else h) v).
  { destruct (gt v h) eqn:E.
    - apply gt_precedes in E; [| assumption ..].
      unfold precedes in *. lia.
    - apply gt_false in E; [| assumption ..].
      unfold precedes in *. lia. }
  unfold max_step.
  destruct h as [[|] | | |], v as [[|] | | |]; try discriminate;
    try exact Hgen; unfold precedes; cbn; lia.
Qed.

Lemma min_step_bounds (h v : Number) :
  is_NaN h = false -> is_NaN v = false ->
  ~ precedes h (min_step h v) /\ ~ precedes v (min_step h v).
Proof.
  intros Hh Hv.
  assert (Hgen : ~ precedes h (if lt v h then v else h) /\
                 ~ precedes v (if lt v h then v else h)).
  { destruct (lt v h) eqn:E.
    - apply lt_precedes in E; [| assumption ..].
      unfold precedes in *. lia.
    - assert (E' : ~ precedes v h).
      { intros H. apply lt_precedes in H; [congruence | assumption ..]. }
      unfold precedes in *. lia. }
  unfold min_step.
  destruct h as [[|] | | |], v as [[|] | | |]; try discriminate;
    try exact Hgen; unfold precedes; cbn; lia.
Qed.

Lemma fold_max_bounds (values : list Number) :
  forall h,
    is_NaN h = false ->
    (forall v, In v values -> is_NaN v = false) ->
    is_NaN (fold_left max_step values h) = false /\
    ~ precedes (fold_left max_step values h) h /\
    (forall v, In v values -> ~ precedes (fold_left max_step values h) v).
Proof.
  induction values as [| u rest IH]; intros h Hh Hall.
  - cbn. split; [exact Hh |]. split; [unfold precedes; lia | intros v []].
  - cbn [fold_left].
    assert (Hu : is_NaN u = false) by (apply Hall; left; reflexivity).
    destruct (max_step_bounds h u Hh Hu) as [B1 B2].
    destruct (IH (max_step h u) (max_step_not_NaN h u Hh Hu))
      as (N & B & Brest).
    { intros v Hv. apply Hall. right. exact Hv. }
    split; [exact N |].
    split; [unfold precedes in *; lia |].
    intros v [<- | Hv]; [unfold precedes in *; lia | apply Brest, Hv].
Qed.

Lemma fold_min_bounds (values : list Number) :
  forall h,
    is_NaN h = false ->
    (forall v, In v values -> is_NaN v = false) ->
    is_NaN (fold_left min_step values h) = false /\
    ~ precedes h (fold_left min_step values h) /\
    (forall v, In v values -> ~ precedes v (fold_left min_step values h)).
Proof.
  induction values as [| u rest IH]; intros h Hh Hall.
  - cbn. split; [exact Hh |]. split; [unfold precedes; lia | intros v []].
  - cbn [fold_left].
    assert (Hu : is_NaN u = false) by (apply Hall; left; reflexivity).
    destruct (min_step_bounds h u Hh Hu) as [B1 B2].
    destruct (IH (min_step h u) (min_step_not_NaN h u Hh Hu))
      as (N & B & Brest).
    { intros v Hv. apply Hall. right. exact Hv. }
    split; [exact N |].
    split; [unfold precedes in *; lia |].
    intros v [<- | Hv]; [unfold precedes in *; lia | apply Brest, Hv].
Qed.

Lemma max_step_In (h v : Number) : max_step h v = h \/ max_step h v = v.
Proof.
  unfold max_step.
  destruct h as [[|] | | |], v as [[|] | | |]; auto;
    destruct (gt _ _); auto.
Qed.

Lemma min_step_In (h v : Number) : min_step h v = h \/ min_step h v = v.
Proof.
  unfold min_step.
  destruct h as [[|] | | |], v as [[|] | | |]; auto;
    destruct (lt _ _); auto.
Qed.

Lemma fold_max_In (values : list Number) :
  forall h, fold_left max_step values h = h
            \/ In (fold_left max_step values h) values.
Proof.
  induction values as [| u rest IH]; intros h; [left; reflexivity |].
  cbn [fold_left]. destruct (IH (max_step h u)) as [E | Hin].
  - rewrite E. destruct (max_step_In h u) as [-> | ->];
      [left; reflexivity | right; left; reflexivity].
  - right. right. exact Hin.
Qed.

Lemma fold_min_In (values : list Number) :
  forall h, fold_left min_step values h = h
            \/ In (fold_left min_step values h) values.
Proof.
  induction values as [| u rest IH]; intros h; [left; reflexivity |].
  cbn [fold_left]. destruct (IH (min_step h u)) as [E | Hin].
  - rewrite E. destruct (min_step_In h u) as [-> | ->];
      [left; reflexivity | right; left; reflexivity].
  - right. right. exact Hin.
Qed.

Lemma max_step_first_In (v : Number) : max_step NegInfinity v = v.
Proof. destruct v as [[|] | [|] | | [|] ? ?]; reflexivity. Qed.

Lemma min_step_first_In (v : Number) : min_step Infinity v = v.
Proof. destruct v as [[|] | [|] | | [|] ? ?]; reflexivity. Qed.

(** [Math.max] and [Math.min] of a non-empty series return one of
    its numbers; when no number of the series is [NaN], none of them is
    greater than the maximum, none is smaller than the minimum, and the
    minimum is not greater than the maximum. *)
Lemma Math_max_min_of_a_series (values : list Number) :
  values <> [] ->
  In (Math_max values) values /\ In (Math_min values) values /\
  ((forall v, In v values -> is_NaN v = false) ->
   (forall v, In v values ->
      gt v (Math_max values) = false /\ lt v (Math_min values) = false) /\
   gt (Math_min values) (Math_max values) = false).
Proof.
  intros Hne. destruct values as [| u rest]; [contradiction |].
  unfold Math_max, Math_min. cbn [fold_left].
  rewrite max_step_first_In, min_step_first_In.
  assert (Imax : In (fold_left max_step rest u) (u :: rest)).
  { destruct (fold_max_In rest u) as [-> | H];
      [left; reflexivity | right; exact H]. }
  assert (Imin : In (fold_left min_step rest u) (u :: rest)).
  { destruct (fold_min_In rest u) as [-> | H];
      [left; reflexivity | right; exact H]. }
  split; [exact Imax |]. split; [exact Imin |].
  intros Hall.
  assert (Hu : is_NaN u = false) by (apply Hall; left; reflexivity).
  assert (Hrest : forall v, In v rest -> is_NaN v = false).
  { intros v Hv. apply Hall. right. exact Hv. }
  destruct (fold_max_bounds rest u Hu Hrest) as (Nmax & Bu & Brest).
  destruct (fold_min_bounds rest u Hu Hrest) as (Nmin & Cu & Crest).
  assert (Hbound : forall v, In v (u :: rest) ->
            gt v (fold_left max_step rest u) = false /\
            lt v (fold_left min_step rest u) = false).
  { intros v Hv. assert (Nv : is_NaN v = false) by (apply Hall, Hv).
    split.
    - apply gt_false; [assumption ..|].
      destruct Hv as [<- | Hv]; [exact Bu | apply Brest, Hv].
    - assert (H : ~ precedes v (fold_left min_step rest u)).
      { destruct Hv as [<- | Hv]; [exact Cu | apply Crest, Hv]. }
      destruct (lt v _) eqn:E; [| reflexivity].
      apply lt_precedes in E; [contradiction | assumption ..]. }
  split; [exact Hbound |].
  apply (Hbound _ Imin).
Qed.

(** *** Integers as numbers *)

Lemma digits2_pos_bound (p : positive) :
  forall k, 0 <= k -> Zpos p < 2 ^ k -> Zpos (digits2_pos p) <= k.
Proof.
  induction p as [p IH | p IH |]; intros k Hk H; cbn [digits2_pos].
  - assert (0 < k).
    { destruct (Z.eq_dec k 0) as [-> | ?]; [cbn in H; lia | lia]. }
    replace k with (Z.succ (k - 1)) in H by lia.
    rewrite Z.pow_succ_r in H by lia.
    specialize (IH (k - 1) ltac:(lia) ltac:(lia)). lia.
  - assert (0 < k).
    { destruct (Z.eq_dec k 0) as [-> | ?]; [cbn in H; lia | lia]. }
    replace k with (Z.succ (k - 1)) in H by lia.
    rewrite Z.pow_succ_r in H by lia.
    specialize (IH (k - 1) ltac:(lia) ltac:(lia)). lia.
  - destruct (Z.eq_dec k 0) as [-> | ?]; [cbn in H; lia | lia].
Qed.

Lemma digits2_pos_iter (p k : positive) :
  Zpos (digits2_pos (Pos.iter xO p k)) = Zpos (digits2_pos p) + Zpos k.
Proof.
  induction k as [| k IH] using Pos.peano_ind.
  - cbn. lia.
  - rewrite Pos.iter_succ. cbn [digits2_pos]. lia.
Qed.

(** A positive integer below [2^53] is a positive finite number: no
    rounding takes place, the mantissa is only shifted to 53 bits. *)
Lemma ofZ_pos_finite (p : positive) :
  Zpos p < 2 ^ 53 ->
  exists m e, ofZ (Zpos p) = S754_finite false m e.
Proof.
  intros H.
  pose proof (digits2_pos_bound p 53 ltac:(lia) H) as Hd.
  assert (Hd1 : 1 <= Zpos (digits2_pos p)) by lia.
  unfold ofZ, binary_normalize, binary_round.
  unfold fexp, emin, prec, emax.
  replace (Z.max (Z.pos (digits2_pos p) + 0 - 53) (3 - 1024 - 53))
    with (Z.pos (digits2_pos p) - 53) by lia.
  unfold shl_align.
  destruct (Z.pos (digits2_pos p) - 53 - 0) as [| q | q] eqn:E; [| lia |].
  - unfold binary_round_aux, shr_fexp, fexp, emin.
    cbn [Zdigits2 shr_record_of_loc].
    replace (Z.max (Z.pos (digits2_pos p) + 0 - 53) (3 - 1024 - 53) - 0)
      with 0 by lia.
    cbn [shr shr_m loc_of_shr_record round_nearest_even Zdigits2
         shr_record_of_loc].
    replace (Z.max (Z.pos (digits2_pos p) + 0 - 53) (3 - 1024 - 53) - 0)
      with 0 by lia.
    cbn. eauto.
  - unfold binary_round_aux, shr_fexp, fexp, emin.
    cbn [Zdigits2 shr_record_of_loc].
    rewrite digits2_pos_iter.
    replace (Z.max (Z.pos (digits2_pos p) + Z.pos q
                    + (Z.pos (digits2_pos p) - 53) - 53) (3 - 1024 - 53)
             - (Z.pos (digits2_pos p) - 53)) with 0 by lia.
    cbn [shr shr_m loc_of_shr_record round_nearest_even Zdigits2
         shr_record_of_loc].
    rewrite digits2_pos_iter.
    replace (Z.max (Z.pos (digits2_pos p) + Z.pos q
                    + (Z.pos (digits2_pos p) - 53) - 53) (3 - 1024 - 53)
             - (Z.pos (digits2_pos p) - 53)) with 0 by lia.
    cbn [shr shr_m].
    destruct (Z.leb_spec (Z.pos (digits2_pos p) - 53) (1024 - 53));
      [eauto | lia].
Qed.

End NumOrder.

(** ** The chart *)

Section ChartBehaviour.
Import DatasetPage Spec Behaviour.
#[local] Open Scope Z_scope.

Lemma map_mapi {A B C} (g : B -> C) (f : Z -> A -> B) (h : A -> C)
    (l : list A) :
  (forall i a, g (f i a) = h a) ->
  forall k, map g (mapi f k l) = map h l.
Proof.
  intros H. induction l as [| a rest IH]; intros k; [reflexivity |].
  cbn. rewrite H, IH. reflexivity.
Qed.

Lemma LineGraph_fields (s : State) :
  getFilteredData s <> [] ->
  exists chart,
    LineGraph s = Some chart /\
    points chart
      = mapi (point_of s (Z.of_nat (length (getFilteredData s)))
                (minValue chart) (range chart))
             0 (getFilteredData s) /\
    colors chart
      = map (fun p => buildingTypeColor (buildingType p)) (points chart) /\
    grid chart
      = map (gridLine (maxValue chart) (range chart)) [0; 1; 2; 3; 4] /\
    heading chart = metricLabel (selectedMetric s).
Proof.
  intros Hne. unfold LineGraph.
  destruct (getFilteredData s) as [| row rest] eqn:E; [contradiction |].
  cbn [length Nat.eqb]. eexists. split; [reflexivity |].
  repeat split.
Qed.

Lemma buildingTypeColor_cases (t : string) :
  (t = "Residential"%string -> buildingTypeColor t = Colour "#3B82F6") /\
  (t = "Commercial"%string -> buildingTypeColor t = Colour "#10B981") /\
  (t = "Industrial"%string -> buildingTypeColor t = Colour "#F59E0B") /\
  (t <> "Residential"%string -> t <> "Commercial"%string ->
   t <> "Industrial"%string -> ~ In t Js.Object_prototype_names ->
   buildingTypeColor t = Colour "#6366F1") /\
  (In t Js.Object_prototype_names -> buildingTypeColor t = Inherited t).
Proof.
  split; [intros ->; reflexivity |].
  split; [intros ->; reflexivity |].
  split; [intros ->; reflexivity |].
  split.
  2:{ intros Hp. simpl in Hp.
      repeat (destruct Hp as [<- | Hp]; [reflexivity |]).
      contradiction. }
  intros H1 H2 H3 Hp. unfold buildingTypeColor.
  apply String.eqb_neq in H1, H2, H3. rewrite H1, H2, H3.
  destruct (existsb (String.eqb t) Js.Object_prototype_names) eqn:E;
    [| reflexivity].
  exfalso. apply Hp. apply existsb_exists in E.
  destruct E as (n & Hn & En). apply String.eqb_eq in En. subst n.
  exact Hn.
Qed.

(** X24.  The chart is drawn exactly when some row is on display; it then
    has one point and one fill per row on display, in the order of the
    rows.  Each point carries the field of its row that the selected
    metric names, and its row's building type.  The fill of a row is
    [#3B82F6] for [Residential], [#10B981] for [Commercial], [#F59E0B]
    for [Industrial], and [#6366F1] for any other building type that is
    not the name of a member of [Object.prototype]; under such a name
    (['constructor'], ['toString'], ['__proto__'], ...) the lookup finds
    the inherited member, which is truthy, and the fill is that member,
    not a colour.  The chart has five grid lines. *)
Theorem chart_has_one_point_per_row (s : State) :
  (LineGraph s = None <-> getFilteredData s = []) /\
  (forall chart, LineGraph s = Some chart ->
     length (points chart) = length (getFilteredData s) /\
     map value (points chart) = selected_values s /\
     map buildingType (points chart)
       = map building_type (getFilteredData s) /\
     length (colors chart) = length (getFilteredData s) /\
     (forall (i : nat) (row : DataRow),
        getFilteredData s !! i = Some row ->
        exists fill,
          colors chart !! i = Some fill /\
          (building_type row = "Residential"%string ->
           fill = Colour "#3B82F6") /\
          (building_type row = "Commercial"%string ->
           fill = Colour "#10B981") /\
          (building_type row = "Industrial"%string ->
           fill = Colour "#F59E0B") /\
          (building_type row <> "Residential"%string ->
           building_type row <> "Commercial"%string ->
           building_type row <> "Industrial"%string ->
           ~ In (building_type row) Js.Object_prototype_names ->
           fill = Colour "#6366F1") /\
          (In (building_type row) Js.Object_prototype_names ->
           fill = Inherited (building_type row))) /\
     length (grid chart) = 5%nat).
Proof.
  split.
  - unfold LineGraph. destruct (getFilteredData s); cbn; split;
      try discriminate; reflexivity.
  - intros chart HL.
    assert (Hne : getFilteredData s <> []).
    { intros E. unfold LineGraph in HL. rewrite E in HL. discriminate. }
    destruct (LineGraph_fields s Hne)
      as (chart' & HL' & Hp & Hc & Hg & Hh).
    rewrite HL in HL'. injection HL' as <-.
    assert (Hcol : colors chart
                   = map (fun row => buildingTypeColor (building_type row))
                         (getFilteredData s)).
    { rewrite Hc, Hp. apply map_mapi. reflexivity. }
    split; [rewrite Hp; apply mapi_length |].
    split.
    { rewrite Hp. unfold selected_values. apply map_mapi.
      intros i row. apply metric_of_selected. }
    split; [rewrite Hp; apply map_mapi; reflexivity |].
    split; [rewrite Hcol; apply length_map |].
    split; [| rewrite Hg; reflexivity].
    intros i row Hrow.
    exists (buildingTypeColor (building_type row)). split.
    + rewrite Hcol, list_lookup_fmap, Hrow. reflexivity.
    + apply buildingTypeColor_cases.
Qed.

(** X25.  A single row on display, with a finite value, is drawn at the
    lower left corner of the chart area, [(80, 440)]: the guards
    [length - 1 || 1] and [max - min || 1] keep both divisions away from
    [0 / 0]. *)
Theorem a_single_row_is_drawn_at_the_corner (s : State) (row : DataRow) :
  getFilteredData s = [row] ->
  Num.is_finite (metric_of row (selectedMetric s)) = true ->
  exists chart,
    LineGraph s = Some chart /\
    points chart
      = [ {| x := Num.ofZ 80; y := Num.ofZ 440;
             value := metric_of row (selectedMetric s);
             buildingType := building_type row |} ] /\
    range chart = Num.ofZ 1.
Proof.
  intros E Hfin.
  destruct (LineGraph_points s) as (chart & HL & Hmax & Hmin & Hr & Hp).
  { rewrite E. discriminate. }
  exists chart. split; [exact HL |].
  set (v := metric_of row (selectedMetric s)) in *.
  assert (Hvals : plotted s = [v]).
  { unfold plotted. rewrite E. reflexivity. }
  rewrite Hvals in Hmax, Hmin.
  assert (Hmax' : maxValue chart = v).
  { rewrite Hmax. apply Num_Math_max_constant;
      [exact Hfin | discriminate | intros u [<- | []]; reflexivity]. }
  assert (Hmin' : minValue chart = v).
  { rewrite Hmin. apply Num_Math_min_constant;
      [exact Hfin | discriminate | intros u [<- | []]; reflexivity]. }
  rewrite Hmax', Hmin', Num_sub_diag in Hr by exact Hfin.
  change (Num.or_else (S754_zero false) (Num.ofZ 1)) with (Num.ofZ 1) in Hr.
  split; [| exact Hr].
  rewrite Hp, E, Hmin', Hr. cbn [length mapi]. unfold point_of.
  fold v. rewrite Num_sub_diag by exact Hfin.
  reflexivity.
Qed.

Lemma a_single_row_is_drawn_at_the_corner_witness :
  let row := {| building_type := "Industrial";
                square_footage := Num.ofZ 5000;
                number_of_occupants := Num.ofZ 40;
                appliances_used := Num.ofZ 75;
                energy_consumption := Num.ofZ 8100 |} in
  let s := apply_update (fetchDataset_settle initial (Resolved [row] 1))
                        (setSelectedMetric appliances_used_metric) in
  exists chart,
    LineGraph s = Some chart /\
    points chart
      = [ {| x := Num.ofZ 80; y := Num.ofZ 440;
             value := metric_of row (selectedMetric s);
             buildingType := building_type row |} ] /\
    range chart = Num.ofZ 1.
Proof.
  intros row s.
  apply (a_single_row_is_drawn_at_the_corner s row); reflexivity.
Defined.

(** X26.  The maximum and the minimum of a chart are values of rows on
    display; when no plotted value is [NaN], no plotted value is greater
    than the maximum or smaller than the minimum, and the minimum is not
    greater than the maximum. *)
Theorem chart_extremes_bound_the_plotted_values (s : State)
    (chart : Chart) :
  LineGraph s = Some chart ->
  In (maxValue chart) (plotted s) /\ In (minValue chart) (plotted s) /\
  ((forall v, In v (plotted s) -> is_NaN v = false) ->
   (forall v, In v (plotted s) ->
      Num.gt v (maxValue chart) = false /\
      Num.lt v (minValue chart) = false) /\
   Num.gt (minValue chart) (maxValue chart) = false).
Proof.
  intros HL.
  assert (Hne : getFilteredData s <> []).
  { intros E. unfold LineGraph in HL. rewrite E in HL. discriminate. }
  destruct (LineGraph_points s Hne) as (chart' & HL' & Hmax & Hmin & _).
  rewrite HL in HL'. injection HL' as <-.
  rewrite Hmax, Hmin. apply Math_max_min_of_a_series.
  unfold plotted. destruct (getFilteredData s); [contradiction |].
  discriminate.
Qed.

Lemma chart_extremes_bound_the_plotted_values_witness :
  let row t v := {| building_type := t;
                    square_footage := Num.ofZ 250;
                    number_of_occupants := Num.ofZ 4;
                    appliances_used := Num.ofZ 20;
                    energy_consumption := Num.ofZ v |} in
  let s := fetchDataset_settle initial
             (Resolved [row "Residential" 10; row "Commercial" 30;
                        row "Industrial" (-5)] 1) in
  exists chart,
    LineGraph s = Some chart /\
    In (maxValue chart) (plotted s) /\ In (minValue chart) (plotted s) /\
    ((forall v, In v (plotted s) -> is_NaN v = false) ->
     (forall v, In v (plotted s) ->
        Num.gt v (maxValue chart) = false /\
        Num.lt v (minValue chart) = false) /\
     Num.gt (minValue chart) (maxValue chart) = false).
Proof.
  intros row s. eexists. split; [reflexivity |].
  apply (chart_extremes_bound_the_plotted_values s). reflexivity.
Defined.

Lemma range_is_truthy (s : State) (chart : Chart) :
  LineGraph s = Some chart -> Num.truthy (range chart) = true.
Proof.
  intros HL.
  assert (Hne : getFilteredData s <> []).
  { intros E. unfold LineGraph in HL. rewrite E in HL. discriminate. }
  destruct (LineGraph_points s Hne) as (chart' & HL' & _ & _ & Hr & _).
  rewrite HL in HL'. injection HL' as <-.
  rewrite Hr. unfold Num.or_else.
  destruct (Num.truthy (Num.sub _ _)) eqn:E; [exact E | reflexivity].
Qed.

Lemma chart_point_at (s : State) (chart : Chart) (i : nat) (row : DataRow) :
  LineGraph s = Some chart ->
  getFilteredData s !! i = Some row ->
  points chart !! i
    = Some (point_of s (Z.of_nat (length (getFilteredData s)))
              (minValue chart) (range chart) (Z.of_nat i) row).
Proof.
  intros HL Hrow.
  assert (Hne : getFilteredData s <> []).
  { intros E. rewrite E in Hrow. discriminate. }
  destruct (LineGraph_points s Hne) as (chart' & HL' & _ & _ & _ & Hp).
  rewrite HL in HL'. injection HL' as <-.
  rewrite Hp, mapi_lookup, Hrow. reflexivity.
Qed.

(** X27.  The range by which the chart divides is never [0] and never
    [NaN], and a row that holds the minimum of the chart, when that
    minimum is finite, is drawn on the x-axis, at [y = 440]. *)
Theorem the_minimum_is_drawn_on_the_axis (s : State) (chart : Chart)
    (i : nat) (row : DataRow) :
  LineGraph s = Some chart ->
  getFilteredData s !! i = Some row ->
  metric_of row (selectedMetric s) = minValue chart ->
  Num.is_finite (minValue chart) = true ->
  Num.truthy (range chart) = true /\
  exists p, points chart !! i = Some p /\ y p = Num.ofZ 440.
Proof.
  intros HL Hrow Hmin Hfin.
  pose proof (range_is_truthy s chart HL) as Hr.
  split; [exact Hr |].
  eexists. split; [apply (chart_point_at s chart i row HL Hrow) |].
  unfold point_of. cbn [y]. rewrite Hmin, Num_sub_diag by exact Hfin.
  destruct (range chart) as [sg | sg | | sg m e]; try discriminate;
    destruct sg; reflexivity.
Qed.

Lemma the_minimum_is_drawn_on_the_axis_witness :
  let row t v := {| building_type := t;
                    square_footage := Num.ofZ 250;
                    number_of_occupants := Num.ofZ 4;
                    appliances_used := Num.ofZ 20;
                    energy_consumption := Num.ofZ v |} in
  let s := fetchDataset_settle initial
             (Resolved [row "Residential" 10; row "Commercial" 30;
                        row "Industrial" (-5)] 1) in
  exists chart,
    LineGraph s = Some chart /\
    Num.truthy (range chart) = true /\
    exists p, points chart !! 2%nat = Some p /\ y p = Num.ofZ 440.
Proof.
  intros row s. eexists. split; [reflexivity |].
  apply (the_minimum_is_drawn_on_the_axis s _ 2%nat
           (row "Industrial" (-5))); reflexivity.
Defined.

(** X28.  Whatever the rows, as long as they are fewer than [2^53], the
    first row on display is drawn at the left edge of the chart area,
    [x = 80]. *)
Theorem the_first_row_is_drawn_at_the_left_edge (s : State)
    (chart : Chart) (row : DataRow) :
  LineGraph s = Some chart ->
  getFilteredData s !! 0%nat = Some row ->
  Z.of_nat (length (getFilteredData s)) < 2 ^ 53 ->
  exists p, points chart !! 0%nat = Some p /\ x p = Num.ofZ 80.
Proof.
  intros HL Hrow Hlen.
  eexists. split; [apply (chart_point_at s chart 0%nat row HL Hrow) |].
  unfold point_of. cbn [x].
  assert (Hpos : 1 <= last_index_or_1 (Z.of_nat (length (getFilteredData s)))
                 < 2 ^ 53).
  { unfold last_index_or_1.
    destruct (getFilteredData s); [discriminate |].
    destruct (Z.eqb_spec (Z.of_nat (length (d :: l)) - 1) 0);
      cbn [length] in *; lia. }
  destruct (last_index_or_1 _) as [| q | q]; try lia.
  destruct (ofZ_pos_finite q) as (m & e & ->); [lia |].
  reflexivity.
Qed.

Lemma the_first_row_is_drawn_at_the_left_edge_witness :
  let row t v := {| building_type := t;
                    square_footage := Num.ofZ 250;
                    number_of_occupants := Num.ofZ 4;
                    appliances_used := Num.ofZ 20;
                    energy_consumption := Num.ofZ v |} in
  let s := fetchDataset_settle initial
             (Resolved [row "Residential" 10; row "Commercial" 30;
                        row "Industrial" (-5)] 1) in
  exists chart,
    LineGraph s = Some chart /\
    exists p, points chart !! 0%nat = Some p /\ x p = Num.ofZ 80.
Proof.
  intros row s. eexists. split; [reflexivity |].
  apply (the_first_row_is_drawn_at_the_left_edge s _ (row "Residential" 10));
    [reflexivity | reflexivity | cbn; lia].
Defined.

End ChartBehaviour.

(** ** From the dataset view to the backend *)

Section DatasetRoundTrip.
Import Handler Next Spec Behaviour.



End DatasetRoundTrip.
